(** * Omni browser proxy: the rewriting-and-safety engine

    A shallow embedding of the proxy scripts of the repository:

    - [Netlify]      netlify/functions/proxy.js           ([handler])
    - [NetlifyLite]  the short Netlify function            ([exports.handler])
    - [Server]       server.js, the guarded Express server ([app.get('/proxy')])

    [LinkRewriter] says, without the functions of the scripts, what a
    rewritten element is; the theorems about the rewriting compare the
    scripts with it.

    JavaScript strings are Rocq strings holding the UTF-8 bytes of the text;
    every pattern the scripts search for is ASCII, so searching bytes and
    searching UTF-16 code units find the same places.  Buffers are lists of
    [Byte.byte]. *)

From Stdlib Require Import ZArith Ascii String List Bool Lia.
From Stdlib.Strings Require Import Byte.
From stdpp Require Import base tactics option list strings gmap.

Local Open Scope Z_scope.

#[local] Set Warnings "-register-all".

(** ** JavaScript values and strings *)

Module Js.

(** The values an attribute, a query parameter or a resolved address can be. *)
Inductive JsVal :=
  | JUndefined
  | JNull
  | JStr (s : string).

#[global] Instance JsVal_eq_dec : EqDecision JsVal.
Proof. solve_decision. Defined.

(** [!v] *)
Definition falsy (v : JsVal) : bool :=
  match v with
  | JUndefined | JNull => true
  | JStr s => if decide (s = "") then true else false
  end.

(** [String(v)] *)
Definition toStr (v : JsVal) : string :=
  match v with
  | JUndefined => "undefined"
  | JNull => "null"
  | JStr s => s
  end.

(** [v || d] for a string default *)
Definition orElse (v : JsVal) (d : string) : string :=
  if falsy v then d else toStr v.

Definition ofOption (o : option string) : JsVal :=
  match o with
  | Some s => JStr s
  | None => JUndefined
  end.

Definition dq : string := String (ascii_of_N 34) EmptyString.
Definition nl : string := String (ascii_of_N 10) EmptyString.

Definition code (c : ascii) : Z := Z.of_N (N_of_ascii c).

Definition lowerChar (c : ascii) : ascii :=
  if (65 <=? code c) && (code c <=? 90)
  then ascii_of_N (N_of_ascii c + 32) else c.

(** [s.toLowerCase()], on the ASCII letters. *)
Fixpoint toLowerCase (s : string) : string :=
  match s with
  | EmptyString => EmptyString
  | String c r => String (lowerChar c) (toLowerCase r)
  end.

(** [s.startsWith(p)] *)
Fixpoint startsWith (s p : string) {struct p} : bool :=
  match p, s with
  | EmptyString, _ => true
  | String _ _, EmptyString => false
  | String a p', String b s' => if decide (a = b) then startsWith s' p' else false
  end.

(** A regular expression [/^lit/i] for an ASCII literal [lit] in lower case. *)
Definition startsWithNoCase (s p : string) : bool :=
  startsWith (toLowerCase s) p.

(** [s.includes(p)] *)
Fixpoint includes (s p : string) : bool :=
  startsWith s p ||
  match s with
  | EmptyString => false
  | String _ r => includes r p
  end.

Fixpoint dropString (n : nat) (s : string) : string :=
  match n, s with
  | O, _ => s
  | S _, EmptyString => EmptyString
  | S k, String _ r => dropString k r
  end.

(** [s.replace(pat, rep)] for a string pattern: the first occurrence only.
    (No script passes a replacement holding a [$] pattern to it.) *)
Fixpoint replace (s pat rep : string) : string :=
  if startsWith s pat then rep +:+ dropString (String.length pat) s
  else match s with
       | EmptyString => EmptyString
       | String c r => String c (replace r pat rep)
       end.

(** [s.split(sep)] for a one-character separator. *)
Fixpoint split (sep : ascii) (s : string) : list string :=
  match s with
  | EmptyString => [EmptyString]
  | String c r =>
      if decide (c = sep) then EmptyString :: split sep r
      else match split sep r with
           | [] => [String c EmptyString]
           | x :: xs => String c x :: xs
           end
  end.

(** *** Number(string)

    A number is NaN, an infinity or a finite binary64 value [m * 2^e]. *)
Inductive JsNumber :=
  | JNaN
  | JInf (negative : bool)
  | JFin (m e : Z).

Definition pow2 (k : Z) : Z := 2 ^ k.

(** Round the positive rational [n / d] to the nearest integer, ties to even. *)
Definition roundHalfEven (n d : Z) : Z :=
  let q := n / d in
  let r := n mod d in
  if 2 * r <? d then q
  else if d <? 2 * r then q + 1
  else if Z.even q then q else q + 1.

(** The binary64 value nearest to [n / d], for [0 <= n] and [0 < d]. *)
Definition roundBinary64 (negative : bool) (n d : Z) : JsNumber :=
  if n =? 0 then JFin 0 0
  else
    let e0 := Z.log2 n - Z.log2 d in
    let reaches := if 0 <=? e0 then d * pow2 e0 <=? n else d <=? n * pow2 (- e0) in
    let e := if reaches then e0 else e0 - 1 in
    let q := Z.max (e - 52) (-1074) in
    let m := if 0 <=? q then roundHalfEven n (d * pow2 q)
             else roundHalfEven (n * pow2 (- q)) d in
    if m =? 0 then JFin 0 0
    else if 1024 <=? Z.log2 m + q then JInf negative
    else JFin (if negative then - m else m) q.

Definition isDigit (c : ascii) : bool := (48 <=? code c) && (code c <=? 57).

Definition digitValue (radix : Z) (c : ascii) : option Z :=
  let n := code c in
  let v := if (48 <=? n) && (n <=? 57) then n - 48
           else if (97 <=? n) && (n <=? 102) then n - 87
           else if (65 <=? n) && (n <=? 70) then n - 55
           else radix in
  if v <? radix then Some v else None.

(** The longest prefix of digits of the radix: its value, how many digits it
    has, and what follows it. *)
Fixpoint spanDigits (radix : Z) (acc : Z) (count : Z) (s : string) : Z * Z * string :=
  match s with
  | EmptyString => (acc, count, s)
  | String c r =>
      match digitValue radix c with
      | Some v => spanDigits radix (acc * radix + v) (count + 1) r
      | None => (acc, count, s)
      end
  end.

Definition isAsciiSpace (c : ascii) : bool :=
  let n := code c in
  ((9 <=? n) && (n <=? 13)) || (n =? 32).

(** Drop leading StrWhiteSpaceChar: tab, line feed, vertical tab, form feed,
    carriage return, space, and in UTF-8 U+00A0, U+1680, U+2000..U+200A,
    U+2028, U+2029, U+202F, U+205F, U+3000 and U+FEFF. *)
Fixpoint skipSpace (s : string) : string :=
  match s with
  | EmptyString => s
  | String c r =>
      if isAsciiSpace c then skipSpace r
      else match r with
           | String c1 r1 =>
               if (code c =? 194) && (code c1 =? 160) then skipSpace r1
               else match r1 with
                    | String c2 r2 =>
                        let k := (code c, code c1, code c2) in
                        let '(x, y, z) := k in
                        if ((x =? 225) && (y =? 154) && (z =? 128))
                           || ((x =? 226) && (y =? 128)
                               && (((128 <=? z) && (z <=? 138)) || (z =? 168)
                                   || (z =? 169) || (z =? 175)))
                           || ((x =? 226) && (y =? 129) && (z =? 159))
                           || ((x =? 227) && (y =? 128) && (z =? 128))
                           || ((x =? 239) && (y =? 187) && (z =? 191))
                        then skipSpace r2 else s
                    | EmptyString => s
                    end
           | EmptyString => s
           end
  end.

(** After the literal only white space may follow. *)
Definition finish (rest : string) (v : JsNumber) : JsNumber :=
  if decide (skipSpace rest = "") then v else JNaN.

(** ExponentPart, or nothing: the exponent and what follows it. *)
Definition exponentPart (s : string) : option (Z * string) :=
  match s with
  | String c r =>
      if (code c =? 101) || (code c =? 69) then
        let '(neg, r') :=
          match r with
          | String sg r0 =>
              if code sg =? 45 then (true, r0)
              else if code sg =? 43 then (false, r0) else (false, r)
          | EmptyString => (false, r)
          end in
        let '(x, k, rest) := spanDigits 10 0 0 r' in
        if k =? 0 then None else Some (if neg then - x else x, rest)
      else Some (0, s)
  | EmptyString => Some (0, s)
  end.

(** StrUnsignedDecimalLiteral *)
Definition unsignedDecimal (negative : bool) (s : string) : JsNumber :=
  if startsWith s "Infinity" then finish (dropString 8 s) (JInf negative)
  else
    let '(ip, ni, r1) := spanDigits 10 0 0 s in
    let '(mant, nf, r2) :=
      match r1 with
      | String c r =>
          if code c =? 46 then
            let '(v, k, r') := spanDigits 10 ip 0 r in (v, k, r')
          else (ip, 0, r1)
      | EmptyString => (ip, 0, r1)
      end in
    if ni + nf =? 0 then JNaN
    else match exponentPart r2 with
         | None => JNaN
         | Some (x, rest) =>
             let p := x - nf in
             finish rest
               (if 0 <=? p then roundBinary64 negative (mant * 10 ^ p) 1
                else roundBinary64 negative mant (10 ^ (- p)))
         end.

(** NonDecimalIntegerLiteral after its two-character prefix. *)
Definition radixLiteral (radix : Z) (s : string) : JsNumber :=
  let '(v, k, rest) := spanDigits radix 0 0 s in
  if k =? 0 then JNaN else finish rest (roundBinary64 false v 1).

(** [Number(s)] for a string [s]: StringToNumber, correctly rounded. *)
Definition Number (s : string) : JsNumber :=
  let t := skipSpace s in
  match t with
  | EmptyString => JFin 0 0
  | String c r =>
      let lower2 := match r with String x _ => code (lowerChar x) | _ => 0 end in
      if (code c =? 48) && (lower2 =? 120) then radixLiteral 16 (dropString 1 r)
      else if (code c =? 48) && (lower2 =? 111) then radixLiteral 8 (dropString 1 r)
      else if (code c =? 48) && (lower2 =? 98) then radixLiteral 2 (dropString 1 r)
      else if code c =? 45 then unsignedDecimal true r
      else if code c =? 43 then unsignedDecimal false r
      else unsignedDecimal false t
  end.

(** Comparison of a number with an integer literal; [None] when the number is
    NaN and every comparison is false. *)
Definition compareInt (x : JsNumber) (c : Z) : option comparison :=
  match x with
  | JNaN => None
  | JInf negative => Some (if negative then Lt else Gt)
  | JFin m e => Some (if 0 <=? e then m * pow2 e ?= c else m ?= c * pow2 (- e))
  end.

(** [x === c] *)
Definition strictEq (x : JsNumber) (c : Z) : bool :=
  match compareInt x c with Some Eq => true | _ => false end.

(** [x >= c] *)
Definition geInt (x : JsNumber) (c : Z) : bool :=
  match compareInt x c with Some Eq | Some Gt => true | _ => false end.

(** [x <= c] *)
Definition leInt (x : JsNumber) (c : Z) : bool :=
  match compareInt x c with Some Eq | Some Lt => true | _ => false end.

(** No character of the string is a dot. *)
Fixpoint noDot (s : string) : bool :=
  match s with
  | EmptyString => true
  | String c r => (if decide (c = "."%char) then false else true) && noDot r
  end.

End Js.

(** ** Asynchronous code: outcomes, and the log of what the platform was asked *)

Module Async.

(** A thrown [Error]: [String(err.message || err)] is its message, or its
    name when the message is empty. *)
Record JsError := { errName : string; errMessage : string }.

Definition errorText (e : JsError) : string :=
  if decide (errMessage e = "") then errName e else errMessage e.

Inductive Outcome (A : Type) :=
  | Value (a : A)
  | Thrown (e : JsError).
Arguments Value {A} a.
Arguments Thrown {A} e.

(** One entry of [dns.lookup(hostname, { all: true })]. *)
Record LookupAddress := { address : Js.JsVal; family : Z }.

(** What [fetch] resolves to: the status line, the headers as
    [headers.forEach] lists them, and the body, whose reading may fail. *)
Record Response := {
  status : Z;
  headers : list (string * string);
  body : Outcome (list byte)
}.

(** The world outside the process, as one request sees it. *)
Record Network := {
  lookup : string -> Outcome (list LookupAddress);
  fetch : string -> Outcome Response
}.

(** The calls a handler made, oldest first. *)
Inductive Call :=
  | DnsLookup (hostname : string)
  | Fetch (url : string) (userAgent : string).

Definition isFetch (c : Call) : bool :=
  match c with Fetch _ _ => true | DnsLookup _ => false end.

(** Synchronous code that may throw. *)
Definition catch {A} (o : Outcome A) (h : JsError -> Outcome A) : Outcome A :=
  match o with
  | Value a => Value a
  | Thrown e => h e
  end.

Definition mapM {A B} (f : A -> Outcome B) : list A -> Outcome (list B) :=
  fix go (l : list A) : Outcome (list B) :=
    match l with
    | [] => Value []
    | x :: rest =>
        match f x with
        | Thrown e => Thrown e
        | Value y =>
            match go rest with
            | Thrown e => Thrown e
            | Value ys => Value (y :: ys)
            end
        end
    end.

(** The value of an outcome, or [d] when it is an error. *)
Definition settle {A} (o : Outcome A) (d : A) : A :=
  match o with
  | Value a => a
  | Thrown _ => d
  end.

(** An [async] function: it has the objects it mutates ([S]) and the log of
    its calls in hand, and settles with a value or an error. *)
Definition M (S A : Type) : Type := S * list Call -> Outcome A * (S * list Call).

Definition ret {S A} (a : A) : M S A := fun w => (Value a, w).

Definition bind {S A B} (m : M S A) (k : A -> M S B) : M S B :=
  fun w =>
    match m w with
    | (Value a, w') => k a w'
    | (Thrown e, w') => (Thrown e, w')
    end.

(** [try { m } catch (e) { h e }]: the handler sees what [m] had already
    changed when it threw. *)
Definition tryCatch {S A} (m : M S A) (h : JsError -> M S A) : M S A :=
  fun w =>
    match m w with
    | (Value a, w') => (Value a, w')
    | (Thrown e, w') => h e w'
    end.

(** A synchronous step inside the function, and [await] of a promise the
    platform has settled. *)
Definition await {S A} (o : Outcome A) : M S A := fun w => (o, w).

Definition update {S} (f : S -> S) : M S unit := fun w => (Value tt, (f (fst w), snd w)).

Definition awaitLookup {S} (net : Network) (hostname : string) : M S (list LookupAddress) :=
  fun w => (lookup net hostname, (fst w, snd w ++ [DnsLookup hostname])).

Definition awaitFetch {S} (net : Network) (url userAgent : string) : M S Response :=
  fun w => (fetch net url, (fst w, snd w ++ [Fetch url userAgent])).

(** [response.text()] with the platform's decoder. *)
Definition responseText (decode : list byte -> string) (r : Response) : Outcome string :=
  match body r with
  | Value bs => Value (decode bs)
  | Thrown e => Thrown e
  end.

End Async.

#[global] Instance Outcome_ret : MRet Async.Outcome := @Async.Value.
#[global] Instance Outcome_bind : MBind Async.Outcome :=
  fun A B k o => match o with Async.Value a => k a | Async.Thrown e => Async.Thrown e end.
#[global] Instance M_ret {S} : MRet (Async.M S) := @Async.ret S.
#[global] Instance M_bind {S} : MBind (Async.M S) := fun A B k m => Async.bind m k.

(** [headers.get(name)]: the name is matched without regard to case. *)
Fixpoint headersGet (hs : list (string * string)) (name : string) : option string :=
  match hs with
  | [] => None
  | (n, v) :: rest =>
      if decide (Js.toLowerCase n = Js.toLowerCase name) then Some v
      else headersGet rest name
  end.

(** [response.headers.get('content-type') || ''] *)
Definition contentTypeOf (r : Async.Response) : string :=
  Js.orElse (Js.ofOption (headersGet (Async.headers r) "content-type")) "".

(** ** server.js: the guard *)

Module Guard.
Import Js Async.

(** [isPrivateIP(ip)] *)
Definition isPrivateIP (ip : JsVal) : bool :=
  match ip with
  | JUndefined | JNull => true
  | JStr s =>
      if decide (s = "") then true
      else
        let ip := if startsWith s "::ffff:" then replace s "::ffff:" "" else s in
        let parts := map Number (split "." ip) in
        let a := nth 0 parts JNaN in
        let b := nth 1 parts JNaN in
        if (Nat.eqb (length parts) 4)
           && (strictEq a 10
               || (strictEq a 172 && geInt b 16 && leInt b 31)
               || (strictEq a 192 && strictEq b 168)
               || strictEq a 127
               || (strictEq a 169 && strictEq b 254))
        then true
        else
          (if decide (ip = "::1") then true else false)
          || startsWith ip "fe80" || startsWith ip "fc" || startsWith ip "fd"
  end.

(** The loop of [resolveAndCheck]: the first private address ends it. *)
Fixpoint noneIsPrivate (addresses : list LookupAddress) : bool :=
  match addresses with
  | [] => true
  | a :: rest => if isPrivateIP (address a) then false else noneIsPrivate rest
  end.

(** [resolveAndCheck(hostname)] *)
Definition resolveAndCheck {S} (net : Network) (hostname : string) : M S bool :=
  tryCatch
    (addresses ← awaitLookup net hostname;
     ret (noneIsPrivate addresses))
    (fun _ => ret false).

(** An IPv4 address, and how [dns.lookup] writes it. *)
Record IPv4 := { o1 : byte; o2 : byte; o3 : byte; o4 : byte }.

Definition octet (b : byte) : Z := Z.of_N (Byte.to_N b).

Definition digitChar (d : Z) : ascii := ascii_of_N (Z.to_N (48 + d)).

Definition showOctet (n : Z) : string :=
  if n <? 10 then String (digitChar n) ""
  else if n <? 100 then String (digitChar (n / 10)) (String (digitChar (n mod 10)) "")
  else String (digitChar (n / 100))
         (String (digitChar (n / 10 mod 10)) (String (digitChar (n mod 10)) "")).

Definition dotted (ip : IPv4) : string :=
  showOctet (octet (o1 ip)) +:+ "." +:+ showOctet (octet (o2 ip)) +:+ "."
  +:+ showOctet (octet (o3 ip)) +:+ "." +:+ showOctet (octet (o4 ip)).

(** The address as a 32-bit number, and membership of a CIDR block. *)
Definition toWord (ip : IPv4) : Z :=
  Z.lor (Z.shiftl (octet (o1 ip)) 24)
    (Z.lor (Z.shiftl (octet (o2 ip)) 16)
       (Z.lor (Z.shiftl (octet (o3 ip)) 8) (octet (o4 ip)))).

Definition inBlock (ip network : IPv4) (prefix : Z) : Prop :=
  Z.shiftr (toWord ip) (32 - prefix) = Z.shiftr (toWord network) (32 - prefix).

Definition ofOctets (a b c d : Z) : IPv4 :=
  let mk n := match Byte.of_N (Z.to_N n) with Some x => x | None => x00 end in
  {| o1 := mk a; o2 := mk b; o3 := mk c; o4 := mk d |}.

(** The private ranges of the specification:
    10.0.0.0/8, 172.16.0.0/12, 192.168.0.0/16, 127.0.0.0/8, 169.254.0.0/16. *)
Definition privateRange (ip : IPv4) : Prop :=
  inBlock ip (ofOctets 10 0 0 0) 8
  \/ inBlock ip (ofOctets 172 16 0 0) 12
  \/ inBlock ip (ofOctets 192 168 0 0) 16
  \/ inBlock ip (ofOctets 127 0 0 0) 8
  \/ inBlock ip (ofOctets 169 254 0 0) 16.

(** What [isPrivateIP] does with the address once the mapped prefix is off. *)
Definition classify (ip : string) : bool :=
  let parts := map Number (split "." ip) in
  let a := nth 0 parts JNaN in
  let b := nth 1 parts JNaN in
  if (Nat.eqb (length parts) 4)
     && (strictEq a 10
         || (strictEq a 172 && geInt b 16 && leInt b 31)
         || (strictEq a 192 && strictEq b 168)
         || strictEq a 127
         || (strictEq a 169 && strictEq b 254))
  then true
  else
    (if decide (ip = "::1") then true else false)
    || startsWith ip "fe80" || startsWith ip "fc" || startsWith ip "fd".

(** The octet tests of [isPrivateIP], on the numbers themselves. *)
Definition octetTest (a b : Z) : bool :=
  (a =? 10) || ((a =? 172) && (16 <=? b) && (b <=? 31))
  || ((a =? 192) && (b =? 168)) || (a =? 127) || ((a =? 169) && (b =? 254)).

(** The number is the integer [n], held exactly. *)
Definition exactly (x : JsNumber) (n : Z) : bool :=
  match x with
  | JFin m e => (e <=? 0) && (m =? n * pow2 (- e))
  | _ => false
  end.

Definition headDigit (s : string) : bool :=
  match s with
  | String c _ => isDigit c
  | EmptyString => false
  end.

End Guard.

(** ** Library routines the scripts call *)

Module Lib.
Import Js Async.

(** [encodeURIComponent(s)]: every byte of the UTF-8 text is escaped, except
    letters, digits and [- _ . ! ~ * ' ( )]. *)
Definition unreserved (c : ascii) : bool :=
  let n := code c in
  ((65 <=? n) && (n <=? 90)) || ((97 <=? n) && (n <=? 122))
  || ((48 <=? n) && (n <=? 57))
  || (n =? 45) || (n =? 95) || (n =? 46) || (n =? 33) || (n =? 126)
  || (n =? 42) || (n =? 39) || (n =? 40) || (n =? 41).

Definition hexDigit (n : Z) : ascii :=
  ascii_of_N (Z.to_N (if n <? 10 then 48 + n else 55 + n)).

Fixpoint encodeURIComponent (s : string) : string :=
  match s with
  | EmptyString => EmptyString
  | String c r =>
      if unreserved c then String c (encodeURIComponent r)
      else String "%" (String (hexDigit (code c / 16))
             (String (hexDigit (code c mod 16)) (encodeURIComponent r)))
  end.

(** [s.replace(/c/g, rep)] for a single character [c]. *)
Fixpoint replaceAll (c : ascii) (rep : string) (s : string) : string :=
  match s with
  | EmptyString => EmptyString
  | String x r =>
      if decide (x = c) then rep +:+ replaceAll c rep r
      else String x (replaceAll c rep r)
  end.

(** *** Base64, as [buffer.toString('base64')] writes it and as the function
    host reads a body flagged [isBase64Encoded] *)

Definition alphabet : string :=
  "ABCDEFGHIJKLMNOPQRSTUVWXYZabcdefghijklmnopqrstuvwxyz0123456789+/".

Definition sextetChar (n : Z) : ascii :=
  match String.get (Z.to_nat n) alphabet with
  | Some c => c
  | None => "="%char
  end.

Definition sextetValue (c : ascii) : option Z :=
  let n := code c in
  if (65 <=? n) && (n <=? 90) then Some (n - 65)
  else if (97 <=? n) && (n <=? 122) then Some (n - 71)
  else if (48 <=? n) && (n <=? 57) then Some (n + 4)
  else if n =? 43 then Some 62
  else if n =? 47 then Some 63
  else None.

Definition byteValue (b : byte) : Z := Z.of_N (Byte.to_N b).
Definition toByte (n : Z) : option byte := Byte.of_N (Z.to_N n).

Fixpoint base64Encode (bs : list byte) : string :=
  match bs with
  | [] => ""
  | [x] =>
      let a := byteValue x in
      String (sextetChar (a / 4)) (String (sextetChar (a mod 4 * 16)) "==")
  | [x; y] =>
      let a := byteValue x in
      let b := byteValue y in
      String (sextetChar (a / 4))
        (String (sextetChar (a mod 4 * 16 + b / 16))
           (String (sextetChar (b mod 16 * 4)) "="))
  | x :: y :: z :: rest =>
      let a := byteValue x in
      let b := byteValue y in
      let c := byteValue z in
      String (sextetChar (a / 4))
        (String (sextetChar (a mod 4 * 16 + b / 16))
           (String (sextetChar (b mod 16 * 4 + c / 64))
              (String (sextetChar (c mod 64)) (base64Encode rest))))
  end.

Fixpoint base64Decode (s : string) : option (list byte) :=
  match s with
  | EmptyString => Some []
  | String c0 (String c1 (String c2 (String c3 rest))) =>
      s0 ← sextetValue c0;
      s1 ← sextetValue c1;
      x ← toByte (s0 * 4 + s1 / 16);
      if decide (c2 = "="%char) then
        if decide (c3 = "="%char ∧ rest = "") then Some [x] else None
      else
        s2 ← sextetValue c2;
        y ← toByte (s1 mod 16 * 16 + s2 / 4);
        if decide (c3 = "="%char) then
          if decide (rest = "") then Some [x; y] else None
        else
          s3 ← sextetValue c3;
          z ← toByte (s2 mod 4 * 64 + s3);
          tail ← base64Decode rest;
          Some (x :: y :: z :: tail)
  | _ => None
  end.

End Lib.

(** ** The parsed document (cheerio) *)

Module Dom.
Import Js.

Inductive Node :=
  | Text (data : string)
  | Element (name : string) (attribs : list (string * string)) (children : list Node).

(** [$(el).attr(name)] *)
Fixpoint attr (attribs : list (string * string)) (name : string) : JsVal :=
  match attribs with
  | [] => JUndefined
  | (n, v) :: rest => if decide (n = name) then JStr v else attr rest name
  end.

Fixpoint putAttr (attribs : list (string * string)) (name value : string)
  : list (string * string) :=
  match attribs with
  | [] => [(name, value)]
  | (n, v) :: rest =>
      if decide (n = name) then (n, value) :: rest
      else (n, v) :: putAttr rest name value
  end.

Fixpoint dropAttr (attribs : list (string * string)) (name : string)
  : list (string * string) :=
  match attribs with
  | [] => []
  | (n, v) :: rest =>
      if decide (n = name) then dropAttr rest name
      else (n, v) :: dropAttr rest name
  end.

(** [$(el).attr(name, value)]: a string is stored, [null] removes the
    attribute, and with [undefined] the call only reads. *)
Definition setAttr (attribs : list (string * string)) (name : string) (value : JsVal)
  : list (string * string) :=
  match value with
  | JStr v => putAttr attribs name v
  | JNull => dropAttr attribs name
  | JUndefined => attribs
  end.

(** A selector looks at the name and the attributes of an element. *)
Definition Selector := string -> list (string * string) -> bool.

Definition hasAttr (attribs : list (string * string)) (name : string) : bool :=
  match attr attribs name with JStr _ => true | _ => false end.

(** [$(sel).each((i, el) => ...)]: the callback reads and writes the
    attributes of [el]; the elements are visited in document order and an
    error thrown by the callback ends the walk. *)
Fixpoint each (sel : Selector)
    (callback : list (string * string) -> Async.Outcome (list (string * string)))
    (n : Node) : Async.Outcome Node :=
  match n with
  | Text d => Async.Value (Text d)
  | Element name attribs children =>
      match (if sel name attribs then callback attribs else Async.Value attribs) with
      | Async.Thrown e => Async.Thrown e
      | Async.Value attribs' =>
          match Async.mapM (each sel callback) children with
          | Async.Thrown e => Async.Thrown e
          | Async.Value children' => Async.Value (Element name attribs' children')
          end
      end
  end.

Definition eachOf (sel : Selector)
    (callback : list (string * string) -> Async.Outcome (list (string * string)))
    (nodes : list Node) : Async.Outcome (list Node) :=
  Async.mapM (each sel callback) nodes.

(** The same walk for a callback that cannot throw. *)
Fixpoint mapElements (sel : Selector)
    (callback : list (string * string) -> list (string * string)) (n : Node) : Node :=
  match n with
  | Text d => Text d
  | Element name attribs children =>
      Element name (if sel name attribs then callback attribs else attribs)
        (map (mapElements sel callback) children)
  end.

Definition selects (sel : Selector) (n : Node) : bool :=
  match n with
  | Text _ => false
  | Element name attribs _ => sel name attribs
  end.

(** [$(sel).remove()]: the selected elements leave the tree, with all that
    is below them. *)
Fixpoint removeBelow (sel : Selector) (n : Node) : Node :=
  match n with
  | Text d => Text d
  | Element name attribs children =>
      Element name attribs
        (List.filter (fun c => negb (selects sel c)) (map (removeBelow sel) children))
  end.

Definition remove (sel : Selector) (nodes : list Node) : list Node :=
  List.filter (fun c => negb (selects sel c)) (map (removeBelow sel) nodes).

(** The elements of a tree in document order, each with its attributes. *)
Fixpoint elementsOf (n : Node) : list (string * list (string * string)) :=
  match n with
  | Text _ => []
  | Element name attribs children => (name, attribs) :: flat_map elementsOf children
  end.

Definition elements (nodes : list Node) : list (string * list (string * string)) :=
  flat_map elementsOf nodes.


(** [$(sel).length] *)
Definition count (sel : Selector) (nodes : list Node) : nat :=
  length (List.filter (fun e => sel (fst e) (snd e)) (elements nodes)).

(** [$(sel).prepend(fragment)]: the parsed fragment becomes the first
    children of every selected element. *)
Fixpoint prepend (sel : Selector) (fragment : list Node) (n : Node) : Node :=
  match n with
  | Text d => Text d
  | Element name attribs children =>
      let children' := map (prepend sel fragment) children in
      Element name attribs (if sel name attribs then fragment ++ children' else children')
  end.

(** What a pass does to one element. *)
Definition onElement (sel : Selector)
    (callback : list (string * string) -> list (string * string))
    (e : string * list (string * string)) : string * list (string * string) :=
  (fst e, if sel (fst e) (snd e) then callback (snd e) else snd e).

(** The selectors of the scripts. *)
Definition selA : Selector := fun name _ => if decide (name = "a") then true else false.
Definition selAHref : Selector := fun name attribs => selA name attribs && hasAttr attribs "href".
Definition selSrc : Selector := fun _ attribs => hasAttr attribs "src".
Definition selLinkHref : Selector :=
  fun name attribs => (if decide (name = "link") then true else false) && hasAttr attribs "href".
Definition selBody : Selector := fun name _ => if decide (name = "body") then true else false.
Definition selCspMeta : Selector :=
  fun name attribs =>
    (if decide (name = "meta") then true else false)
    && (if decide (attr attribs "http-equiv" = JStr "Content-Security-Policy")
        then true else false).

End Dom.

(** ** What the platform supplies

    The URL parser, the HTML parser and serializer of cheerio, the text
    decoder of [response.text()] and the charset table of Express are not
    part of the repository: the scripts are read against any implementation
    of them. *)

Record URLRecord := {
  href : string;
  protocol : string;
  hostname : string;
  origin : string
}.

Class Platform := {
  (** [new URL(input)] and [new URL(input, base)] *)
  newURL : string -> option string -> Async.Outcome URLRecord;
  (** [cheerio.load(text, { decodeEntities: false })] *)
  load : string -> list Dom.Node;
  (** [$.html()] *)
  html : list Dom.Node -> string;
  (** the markup handed to [prepend], parsed *)
  parseFragment : string -> list Dom.Node;
  (** the decoder of [response.text()] *)
  decodeText : list byte -> string;
  (** Express completes a [Content-Type] that names no charset *)
  completeContentType : string -> string
}.

(** [/^https?:\/\//i.test(target)] *)
Definition isHttpUrl (target : string) : bool :=
  Js.startsWithNoCase target "http://" || Js.startsWithNoCase target "https://".

(** [/^(data:|javascript:|mailto:|tel:|#)/i.test(val)] *)
Definition skipScheme (val : string) : bool :=
  Js.startsWithNoCase val "data:" || Js.startsWithNoCase val "javascript:"
  || Js.startsWithNoCase val "mailto:" || Js.startsWithNoCase val "tel:"
  || Js.startsWithNoCase val "#".

(** What a Netlify function is called with and what it returns. *)
Record Event := {
  queryStringParameters : option (gmap string string);
  eventHeaders : gmap string string
}.

Record Result := {
  statusCode : Z;
  isBase64Encoded : bool;
  resultHeaders : list (string * string);
  resultBody : string
}.

(** [(event.queryStringParameters || {}).url] *)
Definition eventUrl (event : Event) : Js.JsVal :=
  let qs := default ∅ (queryStringParameters event) in
  Js.ofOption (qs !! "url").

(** [event.headers['user-agent'] || fallback] *)
Definition eventUserAgent (event : Event) (fallback : string) : string :=
  Js.orElse (Js.ofOption (eventHeaders event !! "user-agent")) fallback.

(** [{ statusCode, body }] *)
Definition plain (code : Z) (text : string) : Result :=
  {| statusCode := code; isBase64Encoded := false; resultHeaders := []; resultBody := text |}.

(** The bytes the function host sends for a result. *)
Definition delivered (r : Result) : option (list byte) :=
  if isBase64Encoded r then Lib.base64Decode (resultBody r)
  else Some (list_byte_of_string (resultBody r)).

(** ** netlify/functions/proxy.js *)

Module Netlify.
Import Js Async Lib Dom.

Definition FUNCTION_PATH : string := "/.netlify/functions/proxy".

Definition escapeHtml (s : string) : string :=
  if decide (s = "") then ""
  else replaceAll ">" "&gt;" (replaceAll "<" "&lt;" (replaceAll "&" "&amp;" s)).

Definition escapeAttr (s : string) : string :=
  if decide (s = "") then ""
  else replaceAll "'" "&#39;" (replaceAll (ascii_of_N 34) "&quot;" s).

Section WithPlatform.
Context `{Platform}.

(** [resolveAndProxy(base, val)] *)
Definition resolveAndProxy (base : string) (val : JsVal) : Outcome JsVal :=
  if falsy val then Value val
  else if skipScheme (toStr val) then Value val
  else
    catch
      (u ← newURL (toStr val) (Some base);
       let abs := href u in
       Value (JStr (FUNCTION_PATH +:+ "?url=" +:+ encodeURIComponent abs)))
      (fun _ => Value val).

(** The callback of [$('a').each] *)
Definition rewriteAnchor (target : string) (attribs : list (string * string))
  : Outcome (list (string * string)) :=
  let href := attr attribs "href" in
  if falsy href then Value attribs
  else
    v ← resolveAndProxy target href;
    Value (setAttr (setAttr attribs "href" v) "rel" (JStr "noreferrer noopener")).

(** The callback of [$('[src]').each] *)
Definition rewriteSrc (target : string) (attribs : list (string * string))
  : Outcome (list (string * string)) :=
  let src := attr attribs "src" in
  if falsy src then Value attribs
  else
    v ← resolveAndProxy target src;
    Value (setAttr attribs "src" v).

(** The callback of [$('link[href]').each] *)
Definition rewriteLink (target : string) (attribs : list (string * string))
  : Outcome (list (string * string)) :=
  let href := attr attribs "href" in
  if falsy href then Value attribs
  else
    v ← resolveAndProxy target href;
    Value (setAttr attribs "href" v).

Definition topbar (target : string) : string :=
  nl
  +:+ "        <div id=" +:+ dq +:+ "sleekproxy-topbar" +:+ dq +:+ " style=" +:+ dq +:+ "position:fixed;left:0;right:0;top:0;z-index:9999999;height:54px;" +:+ nl
  +:+ "            backdrop-filter: blur(6px); background:linear-gradient(180deg, rgba(12,18,26,0.9), rgba(12,18,26,0.6));" +:+ nl
  +:+ "            color:#e6eef8; display:flex; align-items:center; gap:12px; padding:6px 14px; font-family:Inter,system-ui;" +:+ dq +:+ ">" +:+ nl
  +:+ "          <div style=" +:+ dq +:+ "font-weight:700; font-size:13px; margin-left:6px;" +:+ dq +:+ ">SleekProxy</div>" +:+ nl
  +:+ "          <div style=" +:+ dq +:+ "opacity:.93; font-size:13px; margin-left:8px; overflow:hidden; text-overflow:ellipsis; white-space:nowrap; max-width:60%;" +:+ dq +:+ ">" +:+ nl
  +:+ "            " +:+ escapeHtml target +:+ nl
  +:+ "          </div>" +:+ nl
  +:+ "          <div style=" +:+ dq +:+ "margin-left:auto; display:flex; gap:8px;" +:+ dq +:+ ">" +:+ nl
  +:+ "            <a href=" +:+ dq +:+ "/" +:+ dq +:+ " style=" +:+ dq +:+ "color:#cfe8ff; text-decoration:none; padding:6px 10px; background:rgba(255,255,255,0.02); border-radius:8px;" +:+ dq +:+ ">New</a>" +:+ nl
  +:+ "            <a href=" +:+ dq +:+ escapeAttr (FUNCTION_PATH +:+ "?url=" +:+ encodeURIComponent target) +:+ dq +:+ " style=" +:+ dq +:+ "color:#cfe8ff; text-decoration:none; padding:6px 10px; background:rgba(255,255,255,0.02); border-radius:8px;" +:+ dq +:+ ">Refresh</a>" +:+ nl
  +:+ "          </div>" +:+ nl
  +:+ "        </div><div style=" +:+ dq +:+ "height:54px;" +:+ dq +:+ "></div>".

(** What the three passes together do to one element. *)
Definition rewriteElement (target : string) (e : string * list (string * string))
  : string * list (string * string) :=
  onElement selLinkHref (fun a => settle (rewriteLink target a) a)
    (onElement selSrc (fun a => settle (rewriteSrc target a) a)
       (onElement selA (fun a => settle (rewriteAnchor target a) a) e)).

(** The three passes over the links of the page. *)
Definition rewriteLinks (target : string) (doc : list Node) : Outcome (list Node) :=
  d1 ← eachOf selA (rewriteAnchor target) doc;
  d2 ← eachOf selSrc (rewriteSrc target) d1;
  eachOf selLinkHref (rewriteLink target) d2.

(** The page without its CSP [meta], before the bar is put in. *)
Definition rewritePage (target : string) (doc : list Node) : Outcome (list Node) :=
  d ← rewriteLinks target doc;
  Value (remove selCspMeta d).

Definition injectTopbar (target : string) (doc : list Node) : list Node :=
  if (0 <? count selBody doc)%nat
  then map (prepend selBody (parseFragment (topbar target))) doc
  else parseFragment (topbar target) ++ doc.

(** [handler(event, context)] *)
Definition handler (net : Network) (event : Event) : M unit Result :=
  tryCatch
    (let target := eventUrl event in
     if falsy target then
       mret (plain 400
         "Missing url parameter. Usage: /.netlify/functions/proxy?url=https://example.com")
     else if negb (isHttpUrl (toStr target)) then
       mret (plain 400 "Only http(s) URLs are supported. Include http:// or https://")
     else
       upstreamResp ← awaitFetch net (toStr target)
         (eventUserAgent event "SleekProxy-Netlify/1.0");
       let contentType := contentTypeOf upstreamResp in
       let status := if status upstreamResp =? 0 then 200 else status upstreamResp in
       if includes (toLowerCase contentType) "text/html" then
         text ← await (responseText decodeText upstreamResp);
         page ← await (rewritePage (toStr target) (load text));
         let out := html (injectTopbar (toStr target) page) in
         mret {| statusCode := status;
                 isBase64Encoded := false;
                 resultHeaders := [("Content-Type", "text/html; charset=utf-8")];
                 resultBody := out |}
       else
         buffer ← await (body upstreamResp);
         mret {| statusCode := status;
                 isBase64Encoded := true;
                 resultHeaders :=
                   [("Content-Type",
                     if decide (contentType = "") then "application/octet-stream"
                     else contentType);
                    ("Cache-Control", "max-age=3600")];
                 resultBody := base64Encode buffer |})
    (fun err => mret (plain 500 ("Proxy function error: " +:+ errorText err))).

End WithPlatform.
End Netlify.

(** ** The short Netlify function ([exports.handler]) *)

Module NetlifyLite.
Import Js Async Lib Dom.

Definition FUNCTION_PATH : string := "/.netlify/functions/proxy".

Section WithPlatform.
Context `{Platform}.

(** [resolveAndProxy(base, val)] *)
Definition resolveAndProxy (base : string) (val : JsVal) : Outcome JsVal :=
  if falsy val || skipScheme (toStr val) then Value val
  else
    catch
      (u ← newURL (toStr val) (Some base);
       let abs := href u in
       Value (JStr (FUNCTION_PATH +:+ "?url=" +:+ encodeURIComponent abs)))
      (fun _ => Value val).

(** The callback of [$('a[href]').each] and of [$('link[href]').each] *)
Definition rewriteHref (target : string) (attribs : list (string * string))
  : Outcome (list (string * string)) :=
  let href := attr attribs "href" in
  v ← resolveAndProxy target href;
  Value (setAttr attribs "href" v).

(** The callback of [$('[src]').each] *)
Definition rewriteSrc (target : string) (attribs : list (string * string))
  : Outcome (list (string * string)) :=
  let src := attr attribs "src" in
  v ← resolveAndProxy target src;
  Value (setAttr attribs "src" v).

Definition banner (target : string) : string :=
  nl
  +:+ "        <div style=" +:+ dq +:+ "position:fixed;top:0;left:0;right:0;z-index:99999;background:#111;padding:10px;color:#fff;font-size:14px;" +:+ dq +:+ ">" +:+ nl
  +:+ "          Proxying: " +:+ target +:+ nl
  +:+ "          <a href=" +:+ dq +:+ "/" +:+ dq +:+ " style=" +:+ dq +:+ "margin-left:20px;color:#0bf;" +:+ dq +:+ ">Home</a>" +:+ nl
  +:+ "        </div>" +:+ nl
  +:+ "        <div style=" +:+ dq +:+ "height:40px;" +:+ dq +:+ "></div>" +:+ nl
  +:+ "      ".

(** What the three passes together do to one element. *)
Definition rewriteElement (target : string) (e : string * list (string * string))
  : string * list (string * string) :=
  onElement selLinkHref (fun a => settle (rewriteHref target a) a)
    (onElement selSrc (fun a => settle (rewriteSrc target a) a)
       (onElement selAHref (fun a => settle (rewriteHref target a) a) e)).

Definition rewriteLinks (target : string) (doc : list Node) : Outcome (list Node) :=
  d1 ← eachOf selAHref (rewriteHref target) doc;
  d2 ← eachOf selSrc (rewriteSrc target) d1;
  eachOf selLinkHref (rewriteHref target) d2.

Definition rewritePage (target : string) (doc : list Node) : Outcome (list Node) :=
  d ← rewriteLinks target doc;
  Value (remove selCspMeta d).

Definition injectBanner (target : string) (doc : list Node) : list Node :=
  map (prepend selBody (parseFragment (banner target))) doc.

(** [exports.handler(event, context)] *)
Definition handler (net : Network) (event : Event) : M unit Result :=
  tryCatch
    (let target := eventUrl event in
     if falsy target then
       mret (plain 400
         "Missing url parameter. Usage: /.netlify/functions/proxy?url=https://example.com")
     else if negb (isHttpUrl (toStr target)) then
       mret (plain 400 "Only http(s) URLs are supported.")
     else
       upstreamResp ← awaitFetch net (toStr target)
         (eventUserAgent event "SleekProxy/1.0");
       let contentType := contentTypeOf upstreamResp in
       let status := if status upstreamResp =? 0 then 200 else status upstreamResp in
       if includes (toLowerCase contentType) "text/html" then
         text ← await (responseText decodeText upstreamResp);
         page ← await (rewritePage (toStr target) (load text));
         mret {| statusCode := status;
                 isBase64Encoded := false;
                 resultHeaders := [("Content-Type", "text/html; charset=utf-8")];
                 resultBody := html (injectBanner (toStr target) page) |}
       else
         buffer ← await (body upstreamResp);
         mret {| statusCode := status;
                 isBase64Encoded := true;
                 resultHeaders :=
                   [("Content-Type", contentType); ("Cache-Control", "max-age=3600")];
                 resultBody := base64Encode buffer |})
    (fun err => mret (plain 500 ("Proxy function error: " +:+ errorText err))).

End WithPlatform.
End NetlifyLite.

(** ** The Link Rewriter: what a rewritten page is

    The Link Rewriter of the specification, said without the functions of
    the scripts: the proxied form of an attribute value, and how the
    attributes of an element of the page that comes out relate to those of
    the element that went in.  The theorems about the rewriting compare the
    scripts with these. *)

Module LinkRewriter.
Import Js Async Lib Dom.

Section WithPlatform.
Context `{Platform}.




End WithPlatform.
End LinkRewriter.

(** ** server.js: the Express server with the guard *)

Module Server.
Import Js Async Lib Guard.

(** What the handler has told the response object so far: the status, the
    headers it has set, and the body.  What Express writes by itself when
    the body is sent (a [Content-Length], say) is not the handler's and is
    not recorded. *)
Inductive Sent :=
  | NotSent
  | SentText (text : string)
  | Piped (bytes : list byte)
  | Broken.

Record Res := {
  resStatus : Z;
  resHeaders : gmap string string;
  resSent : Sent
}.

Record Req := {
  queryUrl : JsVal;
  userAgent : JsVal
}.

(** [res.status(code)] *)
Definition setStatus (code : Z) (r : Res) : Res :=
  {| resStatus := code; resHeaders := resHeaders r; resSent := resSent r |}.

(** [res.send(text)] *)
Definition send (text : string) (r : Res) : Res :=
  {| resStatus := resStatus r; resHeaders := resHeaders r; resSent := SentText text |}.

(** [body.pipe(res)]: every byte of the stream is written to the response;
    a stream that fails leaves the response unfinished, and nothing catches
    its error. *)
Definition pipe (stream : Outcome (list byte)) (r : Res) : Res :=
  {| resStatus := resStatus r; resHeaders := resHeaders r;
     resSent := match stream with Value bs => Piped bs | Thrown _ => Broken end |}.

Definition banned : list string :=
  ["content-security-policy"; "content-security-policy-report-only";
   "x-frame-options"; "set-cookie"; "set-cookie2"; "strict-transport-security"].

(** [str.replace(regexp, template)]: the special patterns of a template
    for a match with one capture group. *)
Fixpoint expand (template matched before after group : string) : string :=
  match template with
  | EmptyString => EmptyString
  | String x t =>
      if code x =? 36 then
        match t with
        | String c r =>
            if code c =? 36 then String x (expand r matched before after group)
            else if code c =? 38 then matched +:+ expand r matched before after group
            else if code c =? 96 then before +:+ expand r matched before after group
            else if code c =? 39 then after +:+ expand r matched before after group
            else if code c =? 49 then group +:+ expand r matched before after group
            else if code c =? 48 then
              match r with
              | String c' r' =>
                  if code c' =? 49 then group +:+ expand r' matched before after group
                  else String x (expand t matched before after group)
              | EmptyString => String x (expand t matched before after group)
              end
            else String x (expand t matched before after group)
        | EmptyString => String x EmptyString
        end
      else String x (expand t matched before after group)
  end.

Fixpoint breakAt (c : ascii) (s : string) : option (string * string) :=
  match s with
  | EmptyString => None
  | String x r =>
      if decide (x = c) then Some (EmptyString, r)
      else match breakAt c r with
           | Some (g, rest) => Some (String x g, rest)
           | None => None
           end
  end.

Fixpoint takeString (n : nat) (s : string) : string :=
  match n, s with
  | O, _ => EmptyString
  | S _, EmptyString => EmptyString
  | S k, String c r => String c (takeString k r)
  end.

(** [text.replace(re, template)] where [re] matches, without regard to case,
    [<head], then any characters other than [>], then [>]; the characters
    in between are its one group. *)
Fixpoint replaceHead (template before s : string) : string :=
  match (if startsWithNoCase s "<head" then breakAt ">" (dropString 5 s) else None) with
  | Some (g, after) =>
      before +:+ expand template (takeString 5 s +:+ g +:+ ">") before after g +:+ after
  | None =>
      match s with
      | EmptyString => before
      | String c r => replaceHead template (before +:+ String c EmptyString) r
      end
  end.

Section WithPlatform.
Context `{Platform}.

(** [res.set(name, value)] *)
Definition set (name value : string) (r : Res) : Res :=
  let value :=
    if decide (toLowerCase name = "content-type") then completeContentType value
    else value in
  {| resStatus := resStatus r;
     resHeaders := <[toLowerCase name := value]> (resHeaders r);
     resSent := resSent r |}.

(** [upstreamRes.headers.forEach((value, name) => ...)] *)
Definition relayHeaders (hs : list (string * string)) (r : Res) : Res :=
  foldl (fun r h =>
           if bool_decide (toLowerCase (fst h) ∈ banned) then r
           else set (fst h) (snd h) r) r hs.

Definition reply (code : Z) (text : string) : M Res unit :=
  update (setStatus code);; update (send text).

(** The [try] block of the handler, from the call of [fetch] on, with its
    [catch]. *)
Definition fetchAndRelay (net : Network) (req : Req) (target : URLRecord) : M Res unit :=
  tryCatch
    (upstreamRes ← awaitFetch net (href target) (orElse (userAgent req) "OmniProxy/1.0");
     update (setStatus (status upstreamRes));;
     update (relayHeaders (headers upstreamRes));;
     let contentType := contentTypeOf upstreamRes in
     if includes contentType "text/html" then
       text ← await (responseText decodeText upstreamRes);
       let baseTag := "<base href=" +:+ dq +:+ origin target +:+ dq +:+ ">" in
       let modified := replaceHead ("<head$1>" +:+ baseTag) "" text in
       update (set "content-type" "text/html; charset=utf-8");;
       update (send modified)
     else
       update (pipe (body upstreamRes)))
    (fun err => reply 502 "Bad gateway").

(** [app.get('/proxy', maybeAuth, async (req, res) => ...)], for the
    configured [ALLOWLIST] *)
Definition proxy (ALLOWLIST : list string) (net : Network) (req : Req) : M Res unit :=
  let raw := queryUrl req in
  if falsy raw then reply 400 "Missing url parameter"
  else
    match newURL (toStr raw) None with
    | Thrown _ => reply 400 "Invalid URL"
    | Value target =>
        if negb (bool_decide (protocol target ∈ ["http:"; "https:"])) then
          reply 400 "Invalid protocol"
        else if negb (Nat.eqb (length ALLOWLIST) 0)
                && negb (bool_decide (hostname target ∈ ALLOWLIST)) then
          reply 403 "Host not allowed by server allowlist"
        else
          ok ← resolveAndCheck net (hostname target);
          if negb ok then reply 403 "Access to private/internal IPs is blocked"
          else fetchAndRelay net req target
    end.

(** What must hold of a request for the handler to reach [fetch]: a URL
    the parser accepts, with scheme http or https, a host the allowlist
    lets through, and a lookup that names no private address. *)
Definition reachesFetch (ALLOWLIST : list string) (net : Network) (req : Req)
    (target : URLRecord) : Prop :=
  falsy (queryUrl req) = false
  /\ newURL (toStr (queryUrl req)) None = Value target
  /\ protocol target ∈ ["http:"; "https:"]
  /\ (ALLOWLIST = [] \/ hostname target ∈ ALLOWLIST)
  /\ exists addresses,
       lookup net (hostname target) = Value addresses
       /\ Forall (fun a => isPrivateIP (address a) = false) addresses.

End WithPlatform.

(** A step of the handler that leaves the header under [key] as it is. *)
Definition keepsHeader {A} (key : string) (m : M Res A) : Prop :=
  forall w, resHeaders (fst (snd (m w))) !! key = resHeaders (fst w) !! key.

(** The response as Express hands it to the handler. *)
Definition freshRes : Res := {| resStatus := 200; resHeaders := ∅; resSent := NotSent |}.

End Server.

(** ** A small platform to run the scripts on

    An absolute http(s) URL whose host is made of letters, digits, dots and
    hyphens parses to itself, a path that starts with a slash is put after
    the base, and everything else is refused; the markup is read by a small
    reader and written back with its attributes. *)

Module Toy.
Import Js Async Dom.

Definition typeError : JsError := {| errName := "TypeError"; errMessage := "Invalid URL" |}.

Definition hostChar (c : ascii) : bool :=
  let n := code (lowerChar c) in
  ((97 <=? n) && (n <=? 122)) || ((48 <=? n) && (n <=? 57)) || (n =? 46) || (n =? 45).

Fixpoint allHostChars (s : string) : bool :=
  match s with
  | EmptyString => true
  | String c r => hostChar c && allHostChars r
  end.

Definition toyURL (input : string) (base : option string) : Outcome URLRecord :=
  let secure := startsWithNoCase input "https://" in
  let host := dropString (if secure then 8 else 7) input in
  if isHttpUrl input && negb (if decide (host = "") then true else false)
     && allHostChars host then
    Value {| href := input +:+ "/";
             protocol := if secure then "https:" else "http:";
             hostname := host;
             origin := input |}
  else
    match base with
    | Some b =>
        if startsWith input "/" then
          Value {| href := b +:+ input; protocol := "https:"; hostname := b; origin := b |}
        else Thrown typeError
    | None => Thrown typeError
    end.

(** A small reader of markup.  An element is written [<name key='value'>];
    its children run up to [</name>]; [img], [link], [meta], [br], [hr] and
    [input] have none; everything else is text. *)
Definition isVoid (name : string) : bool :=
  bool_decide (name ∈ ["img"; "link"; "meta"; "br"; "hr"; "input"]).

Definition isChar (c x : ascii) : bool := if decide (x = c) then true else false.

Definition endsName (x : ascii) : bool :=
  isChar " " x || isChar ">" x || isChar "=" x || isChar "/" x.

Fixpoint spanUntil (stop : ascii -> bool) (s : string) : string * string :=
  match s with
  | EmptyString => (EmptyString, EmptyString)
  | String c r =>
      if stop c then (EmptyString, s)
      else let (a, b) := spanUntil stop r in (String c a, b)
  end.

(** The attributes of a tag, up to its [>]. *)
Fixpoint readAttribs (fuel : nat) (s : string) : list (string * string) * string :=
  match fuel with
  | O => ([], s)
  | S fuel =>
      match s with
      | EmptyString => ([], EmptyString)
      | String c r =>
          if isChar ">" c then ([], r)
          else if isChar " " c || isChar "/" c then readAttribs fuel r
          else
            let (name, rest) := spanUntil endsName s in
            let (value, rest) :=
              match rest with
              | String e (String q r') =>
                  if isChar "=" e then
                    if isChar (ascii_of_N 34) q || isChar "'" q then
                      let (v, after) := spanUntil (isChar q) r' in (v, dropString 1 after)
                    else spanUntil (fun x => isChar " " x || isChar ">" x) (String q r')
                  else (EmptyString, rest)
              | _ => (EmptyString, rest)
              end in
            let (more, rest) := readAttribs fuel rest in
            ((toLowerCase name, value) :: more, rest)
      end
  end.

(** The nodes up to the end of the text or to a closing tag. *)
Fixpoint readNodes (fuel : nat) (s : string) : list Node * string :=
  match fuel with
  | O => ([], EmptyString)
  | S fuel =>
      match s with
      | EmptyString => ([], EmptyString)
      | String c r =>
          if startsWith s "</" then ([], dropString 1 (snd (spanUntil (isChar ">") s)))
          else if isChar "<" c then
            let (name, rest) := spanUntil endsName r in
            let (attribs, rest) := readAttribs (S (String.length rest)) rest in
            if isVoid (toLowerCase name) then
              let (siblings, rest) := readNodes fuel rest in
              (Element (toLowerCase name) attribs [] :: siblings, rest)
            else
              let (children, rest) := readNodes fuel rest in
              let (siblings, rest) := readNodes fuel rest in
              (Element (toLowerCase name) attribs children :: siblings, rest)
          else
            let (text, rest) := spanUntil (isChar "<") s in
            let (siblings, rest) := readNodes fuel rest in
            (Text text :: siblings, rest)
      end
  end.

Definition read (markup : string) : list Node :=
  fst (readNodes (S (String.length markup)) markup).

Fixpoint showAttribs (attribs : list (string * string)) : string :=
  match attribs with
  | [] => EmptyString
  | (k, v) :: rest => " " +:+ k +:+ "=" +:+ dq +:+ v +:+ dq +:+ showAttribs rest
  end.

Fixpoint showNode (n : Node) : string :=
  match n with
  | Text d => d
  | Element name attribs children =>
      "<" +:+ name +:+ showAttribs attribs +:+ ">"
      +:+ (if isVoid name then EmptyString
           else (fix showAll (l : list Node) : string :=
                   match l with
                   | [] => EmptyString
                   | c :: r => showNode c +:+ showAll r
                   end) children
                +:+ "</" +:+ name +:+ ">")
  end.

Fixpoint toyHtml (nodes : list Node) : string :=
  match nodes with
  | [] => ""
  | n :: rest => showNode n +:+ toyHtml rest
  end.

#[global] Instance platform : Platform := {|
  newURL := toyURL;
  load := fun text =>
    [Element "html" [] [Element "head" [] []; Element "body" [] (read text)]];
  html := toyHtml;
  parseFragment := read;
  decodeText := string_of_list_byte;
  completeContentType := fun v => v
|}.

Definition failing : Network :=
  {| lookup := fun _ => Thrown {| errName := "Error"; errMessage := "getaddrinfo ENOTFOUND" |};
     fetch := fun _ => Thrown {| errName := "FetchError"; errMessage := "network timeout" |} |}.

(** One host with a public and a private address, serving [reply]. *)
Definition serving (addresses : list LookupAddress) (reply : Response) : Network :=
  {| lookup := fun _ => Value addresses; fetch := fun _ => Value reply |}.

Definition publicAddress : LookupAddress := {| address := JStr "93.184.216.34"; family := 4 |}.
Definition privateAddress : LookupAddress := {| address := JStr "10.0.0.7"; family := 4 |}.

Definition start {S} (s : S) : S * list Call := (s, []).

(** A host that resolves to a public address and does not answer. *)
Definition unreachable : Network :=
  {| lookup := fun _ => Value [publicAddress];
     fetch := fun _ => Thrown {| errName := "FetchError"; errMessage := "network timeout" |} |}.

(** Requests for [https://example.com], and one without [url]. *)
Definition request : Event :=
  {| queryStringParameters := Some {[ "url" := "https://example.com" ]};
     eventHeaders := ∅ |}.

Definition emptyRequest : Event :=
  {| queryStringParameters := None; eventHeaders := ∅ |}.

Definition serverRequest : Server.Req :=
  {| Server.queryUrl := JStr "https://example.com"; Server.userAgent := JUndefined |}.

Definition emptyServerRequest : Server.Req :=
  {| Server.queryUrl := JUndefined; Server.userAgent := JUndefined |}.

Definition exampleCom : URLRecord :=
  {| href := "https://example.com/"; protocol := "https:";
     hostname := "example.com"; origin := "https://example.com" |}.



Definition latinPage : Response :=
  {| status := 200;
     headers := [("Set-Cookie", "a=b"); ("Content-Type", "text/html; charset=iso-8859-1");
                 ("X-Other", "1"); ("X-Frame-Options", "DENY")];
     body := Value (list_byte_of_string "<p>ol</p>") |}.

Definition styleSheet : Response :=
  {| status := 200;
     headers := [("Set-Cookie", "a=b"); ("Content-Type", "text/css");
                 ("X-Other", "1"); ("X-Frame-Options", "DENY")];
     body := Value (list_byte_of_string "p{}") |}.

Definition picture : Response :=
  {| status := 200;
     headers := [("content-type", "image/png")];
     body := Value [x89; x50; x4e; x47; x0d; x0a; x1a; x0a] |}.

End Toy.

(** * Properties *)

(** Membership of a list that is written out. *)
Ltac in_list := apply list_elem_of_In; vm_compute; tauto.
Ltac not_in_list H :=
  apply list_elem_of_In in H; vm_compute in H; intuition discriminate.

(** ** Strings *)

Section Strings.
Import Js.

Lemma append_empty r : "" +:+ r = r.
Proof. reflexivity. Qed.

Lemma append_cons c x r : String c x +:+ r = String c (x +:+ r).
Proof. reflexivity. Qed.

Lemma startsWith_head c r c' p :
  startsWith (String c r) (String c' p) = true -> c' = c.
Proof. simpl. case_decide; [done | discriminate]. Qed.

Lemma startsWith_app p r : startsWith (p +:+ r) p = true.
Proof. induction p as [|c p IH]; [done|]. simpl. by case_decide. Qed.

Lemma dropString_app p r : dropString (String.length p) (p +:+ r) = r.
Proof. induction p as [|c p IH]; [done|]. by simpl. Qed.

Lemma replace_prefix p r : replace (p +:+ r) p "" = r.
Proof.
  destruct p as [|c p]; [destruct r; reflexivity|].
  change (replace (String c p +:+ r) (String c p) "")
    with (if startsWith (String c p +:+ r) (String c p)
          then "" +:+ dropString (String.length (String c p)) (String c p +:+ r)
          else String c (replace (p +:+ r) (String c p) "")).
  by rewrite startsWith_app, dropString_app.
Qed.

Lemma split_noDot x : noDot x = true -> split "." x = [x].
Proof.
  induction x as [|c x IH]; [done|]. simpl.
  case_decide; [done|]. intros Hx. by rewrite IH.
Qed.

Lemma split_noDot_app x r :
  noDot x = true -> split "." (x +:+ String "." r) = x :: split "." r.
Proof.
  induction x as [|c x IH]; simpl.
  - done.
  - repeat case_decide; try done. intros Hx. by rewrite IH.
Qed.

Lemma startsWith_lower s p :
  startsWith s p = true -> startsWith (toLowerCase s) (toLowerCase p) = true.
Proof.
  revert s. induction p as [|c p IH]; intros [|d s]; simpl; try done.
  repeat case_decide; subst; try done. auto.
Qed.

Lemma includes_lower s p :
  includes s p = true -> includes (toLowerCase s) (toLowerCase p) = true.
Proof.
  induction s as [|c s IH]; simpl.
  - rewrite orb_false_r. intros Hp. rewrite orb_false_r.
    by apply (startsWith_lower "" p).
  - intros [Hp | Hs]%orb_true_iff; apply orb_true_iff.
    + left. by apply (startsWith_lower (String c s) p).
    + right. auto.
Qed.

End Strings.

(** ** The guard *)

Section GuardFacts.
Import Js Async Guard.

Lemma isPrivateIP_unfold s :
  isPrivateIP (JStr s) =
  if decide (s = "") then true
  else classify (if startsWith s "::ffff:" then replace s "::ffff:" "" else s).
Proof. reflexivity. Qed.

Lemma classify_prefix ip p :
  p = "fe80" \/ p = "fc" \/ p = "fd" -> startsWith ip p = true -> classify ip = true.
Proof.
  intros Hp Hs. unfold classify.
  destruct (_ && _); [done|].
  destruct Hp as [-> | [-> | ->]]; rewrite Hs; by rewrite ?orb_true_r.
Qed.

Lemma exactly_compare x n c : exactly x n = true -> compareInt x c = Some (n ?= c).
Proof.
  destruct x as [| |m e]; simpl; try done.
  intros [He Hm]%andb_true_iff. apply Z.leb_le in He. apply Z.eqb_eq in Hm. subst m.
  assert (0 < pow2 (- e)) by (unfold pow2; apply Z.pow_pos_nonneg; lia).
  destruct (0 <=? e) eqn:E.
  - apply Z.leb_le in E. assert (e = 0) as -> by lia.
    simpl. unfold pow2. simpl. by rewrite !Z.mul_1_r.
  - f_equal. symmetry. apply Zmult_compare_compat_r. lia.
Qed.

Lemma exactly_strictEq x n c : exactly x n = true -> strictEq x c = (n =? c).
Proof.
  intros Hx. unfold strictEq. rewrite (exactly_compare _ _ _ Hx).
  destruct (Z.compare_spec n c) as [-> | Hlt | Hgt].
  - by rewrite Z.eqb_refl.
  - symmetry. apply Z.eqb_neq. lia.
  - symmetry. apply Z.eqb_neq. lia.
Qed.

Lemma exactly_geInt x n c : exactly x n = true -> geInt x c = (c <=? n).
Proof.
  intros Hx. unfold geInt. rewrite (exactly_compare _ _ _ Hx).
  destruct (Z.compare_spec n c) as [-> | Hlt | Hgt]; symmetry.
  - apply Z.leb_le. lia.
  - apply Z.leb_gt. lia.
  - apply Z.leb_le. lia.
Qed.

Lemma exactly_leInt x n c : exactly x n = true -> leInt x c = (n <=? c).
Proof.
  intros Hx. unfold leInt. rewrite (exactly_compare _ _ _ Hx).
  destruct (Z.compare_spec n c) as [-> | Hlt | Hgt]; symmetry.
  - apply Z.leb_le. lia.
  - apply Z.leb_le. lia.
  - apply Z.leb_gt. lia.
Qed.

(** Every octet is written with digits only, and [Number] reads it back. *)
Lemma octet_written (b : byte) :
  let x := showOctet (octet b) in
  noDot x = true /\ headDigit x = true /\ exactly (Number x) (octet b) = true.
Proof. destruct b; vm_compute; done. Qed.

Lemma octet_range (b : byte) : 0 <= octet b < 256.
Proof.
  unfold octet. pose proof (Byte.to_N_bounded b). lia.
Qed.

Lemma dotted_unfold ip :
  dotted ip =
  showOctet (octet (o1 ip)) +:+ String "."
    (showOctet (octet (o2 ip)) +:+ String "."
       (showOctet (octet (o3 ip)) +:+ String "." (showOctet (octet (o4 ip))))).
Proof. reflexivity. Qed.

Lemma digit_not c r p :
  isDigit c = true ->
  p = "::ffff:" \/ p = "fe80" \/ p = "fc" \/ p = "fd" ->
  startsWith (String c r) p = false.
Proof.
  intros Hc Hp. destruct (startsWith (String c r) p) eqn:E; [|done].
  destruct Hp as [-> | [-> | [-> | ->]]];
    apply startsWith_head in E; subst c; vm_compute in Hc; discriminate.
Qed.

(** A dotted address is classified by its first two octets. *)
Lemma classify_dotted ip :
  classify (dotted ip) = octetTest (octet (o1 ip)) (octet (o2 ip)).
Proof.
  rewrite dotted_unfold. destruct ip as [a b c d]. cbn [o1 o2 o3 o4].
  destruct (octet_written a) as (Ha1 & Ha2 & Ha3).
  destruct (octet_written b) as (Hb1 & _ & Hb3).
  destruct (octet_written c) as (Hc1 & _ & _).
  destruct (octet_written d) as (Hd1 & _ & _).
  unfold classify.
  rewrite !split_noDot_app, split_noDot by done.
  cbn [map length nth Nat.eqb andb].
  rewrite !(exactly_strictEq _ _ _ Ha3), !(exactly_strictEq _ _ _ Hb3),
    (exactly_geInt _ _ _ Hb3), (exactly_leInt _ _ _ Hb3).
  fold (octetTest (octet a) (octet b)).
  destruct (octetTest (octet a) (octet b)); [done|].
  destruct (showOctet (octet a)) as [|ch x] eqn:E; [done|].
  rewrite append_cons.
  rewrite !digit_not by (simpl in Ha2; auto).
  case_decide as Heq; [|done].
  injection Heq as -> _. vm_compute in Ha2. discriminate.
Qed.

Lemma isPrivateIP_dotted ip :
  isPrivateIP (JStr (dotted ip)) = octetTest (octet (o1 ip)) (octet (o2 ip)).
Proof.
  rewrite isPrivateIP_unfold, <- classify_dotted.
  destruct (octet_written (o1 ip)) as (_ & Hd & _).
  rewrite dotted_unfold.
  destruct (showOctet (octet (o1 ip))) as [|ch x]; [done|].
  rewrite !append_cons.
  case_decide; [done|].
  by rewrite digit_not by (simpl in Hd; auto).
Qed.

Lemma isPrivateIP_mapped ip :
  isPrivateIP (JStr ("::ffff:" +:+ dotted ip)) = octetTest (octet (o1 ip)) (octet (o2 ip)).
Proof.
  rewrite isPrivateIP_unfold, <- classify_dotted.
  rewrite startsWith_app, replace_prefix.
  by case_decide.
Qed.


Lemma lor_shiftl_add x y k :
  0 <= k -> 0 <= y < 2 ^ k -> Z.lor (Z.shiftl x k) y = x * 2 ^ k + y.
Proof.
  intros Hk Hy. rewrite <- Z.add_lor_land, Z.shiftl_mul_pow2 by done.
  assert (Z.land (x * 2 ^ k) y = 0) as ->; [|lia].
  apply Z.bits_inj'. intros n Hn.
  rewrite Z.land_spec, Z.bits_0.
  destruct (Z.lt_ge_cases n k) as [Hlt | Hge].
  - by rewrite Z.mul_pow2_bits_low.
  - rewrite <- (Z.mod_small y (2 ^ k)) by done.
    rewrite Z.mod_pow2_bits_high by lia. apply andb_false_r.
Qed.

Lemma toWord_sum ip :
  toWord ip =
  octet (o1 ip) * 2 ^ 24 + octet (o2 ip) * 2 ^ 16 + octet (o3 ip) * 2 ^ 8 + octet (o4 ip).
Proof.
  pose proof (octet_range (o1 ip)). pose proof (octet_range (o2 ip)).
  pose proof (octet_range (o3 ip)). pose proof (octet_range (o4 ip)).
  unfold toWord.
  rewrite (lor_shiftl_add (octet (o3 ip)) _ 8) by lia.
  rewrite (lor_shiftl_add (octet (o2 ip)) _ 16) by lia.
  rewrite (lor_shiftl_add (octet (o1 ip)) _ 24) by lia.
  lia.
Qed.

(** The octet tests are the five blocks. *)
Lemma octetTest_blocks ip :
  octetTest (octet (o1 ip)) (octet (o2 ip)) = true <-> privateRange ip.
Proof.
  pose proof (octet_range (o1 ip)) as Ha. pose proof (octet_range (o2 ip)) as Hb.
  pose proof (octet_range (o3 ip)) as Hc. pose proof (octet_range (o4 ip)) as Hd.
  unfold privateRange, inBlock. rewrite !Z.shiftr_div_pow2 by lia.
  rewrite toWord_sum.
  change (toWord (ofOctets 10 0 0 0)) with 167772160.
  change (toWord (ofOctets 172 16 0 0)) with 2886729728.
  change (toWord (ofOctets 192 168 0 0)) with 3232235520.
  change (toWord (ofOctets 127 0 0 0)) with 2130706432.
  change (toWord (ofOctets 169 254 0 0)) with 2851995648.
  change (32 - 8) with 24. change (32 - 12) with 20. change (32 - 16) with 16.
  change (2 ^ 24) with 16777216. change (2 ^ 20) with 1048576.
  change (2 ^ 16) with 65536. change (2 ^ 8) with 256.
  change (167772160 / 16777216) with 10.
  change (2886729728 / 1048576) with 2753.
  change (3232235520 / 65536) with 49320.
  change (2130706432 / 16777216) with 127.
  change (2851995648 / 65536) with 43518.
  generalize dependent (octet (o1 ip)). generalize dependent (octet (o2 ip)).
  generalize dependent (octet (o3 ip)). generalize dependent (octet (o4 ip)).
  intros d Hd c Hc b Hb a Ha.
  unfold octetTest.
  rewrite !orb_true_iff, !andb_true_iff, !Z.eqb_eq, !Z.leb_le.
  split.
  - intros H. Z.div_mod_to_equations. lia.
  - intros H. Z.div_mod_to_equations. lia.
Qed.

(** C2. [isPrivateIP] is true of exactly the IPv4 addresses of 10.0.0.0/8,
    172.16.0.0/12, 192.168.0.0/16, 127.0.0.0/8 and 169.254.0.0/16, written
    plainly or as [::ffff:a.b.c.d], hence false of every other IPv4 address
    such as 8.8.8.8; it is true of [::1] and of every string that begins
    with [fe80], [fc] or [fd]. *)
Theorem isPrivateIP_ranges :
  (forall ip : IPv4, isPrivateIP (JStr (dotted ip)) = true <-> privateRange ip)
  /\ (forall ip : IPv4,
        isPrivateIP (JStr ("::ffff:" +:+ dotted ip)) = true <-> privateRange ip)
  /\ isPrivateIP (JStr "::1") = true
  /\ (forall s p, p = "fe80" \/ p = "fc" \/ p = "fd" ->
        startsWith s p = true -> isPrivateIP (JStr s) = true)
  /\ isPrivateIP (JStr (dotted (ofOctets 8 8 8 8))) = false.
Proof.
  split; [|split; [|split; [|split]]].
  - intros ip. rewrite isPrivateIP_dotted. apply octetTest_blocks.
  - intros ip. rewrite isPrivateIP_mapped. apply octetTest_blocks.
  - reflexivity.
  - intros s p Hp Hs. rewrite isPrivateIP_unfold.
    case_decide; [done|].
    assert (startsWith s "::ffff:" = false) as ->.
    { destruct s as [|c r]; [done|].
      destruct (startsWith (String c r) "::ffff:") eqn:E; [|done].
      apply startsWith_head in E. subst c.
      destruct Hp as [-> | [-> | ->]]; apply startsWith_head in Hs; discriminate. }
    by apply (classify_prefix s p).
  - reflexivity.
Qed.

(** The private blocks hold 10.0.0.1, 172.20.0.1, 192.168.1.1, 127.0.0.1 and
    169.254.1.1, and the guard calls each of them private. *)
Lemma isPrivateIP_ranges_witness :
  privateRange (ofOctets 172 20 0 1)
  /\ isPrivateIP (JStr "172.20.0.1") = true
  /\ isPrivateIP (JStr "::ffff:172.20.0.1") = true
  /\ isPrivateIP (JStr "fe80::1") = true.
Proof.
  assert (privateRange (ofOctets 172 20 0 1)) as Hin.
  { right. left. reflexivity. }
  split; [exact Hin|]. split; [|split].
  - exact (proj2 (proj1 isPrivateIP_ranges (ofOctets 172 20 0 1)) Hin).
  - exact (proj2 (proj1 (proj2 isPrivateIP_ranges) (ofOctets 172 20 0 1)) Hin).
  - apply (proj1 (proj2 (proj2 (proj2 isPrivateIP_ranges))) "fe80::1" "fe80");
      [by left | reflexivity].
Defined.

(** C10. An empty, [null] or [undefined] address counts as private, and a
    lookup that lists such an address is denied. *)
Theorem isPrivateIP_absent :
  isPrivateIP (JStr "") = true
  /\ isPrivateIP JNull = true
  /\ isPrivateIP JUndefined = true
  /\ (forall (S : Type) net hostname addresses a (w : S * list Call),
        lookup net hostname = Value addresses ->
        a ∈ addresses ->
        falsy (address a) = true ->
        fst (resolveAndCheck net hostname w) = Value false).
Proof.
  repeat split; try reflexivity.
  intros S net hostname addresses a w Hl Ha Hf.
  unfold resolveAndCheck, tryCatch, awaitLookup, mbind, M_bind, bind, ret.
  rewrite Hl. simpl. f_equal. clear Hl.
  induction Ha as [a rest | a b rest Hin IH]; simpl.
  - assert (isPrivateIP (address a) = true) as ->; [|done].
    destruct (address a) as [| |s]; try done.
    simpl in Hf. rewrite isPrivateIP_unfold. by case_decide.
  - destruct (isPrivateIP (address b)); [done | by apply IH].
Qed.

Lemma isPrivateIP_absent_witness :
  fst (resolveAndCheck
         (Toy.serving [Toy.publicAddress; {| address := JUndefined; family := 4 |}]
            {| status := 200; headers := []; body := Value [] |})
         "example.com" (Toy.start tt)) = Value false.
Proof.
  apply (proj2 (proj2 (proj2 isPrivateIP_absent)) unit _ "example.com"
           [Toy.publicAddress; {| address := JUndefined; family := 4 |}]
           {| address := JUndefined; family := 4 |}).
  - reflexivity.
  - in_list.
  - reflexivity.
Defined.

Lemma noneIsPrivate_Forall addresses :
  noneIsPrivate addresses = true
  <-> Forall (fun a => isPrivateIP (address a) = false) addresses.
Proof.
  induction addresses as [|a rest IH]; simpl.
  - split; [constructor | done].
  - destruct (isPrivateIP (address a)) eqn:E.
    + split; [done|]. intros Hall. inversion Hall; congruence.
    + rewrite IH. split; [by constructor|]. intros Hall. by inversion Hall.
Qed.

(** C1. [resolveAndCheck] always settles with a boolean, and the boolean is
    [true] exactly when the lookup succeeded and no address it returned is
    private: one private address among public ones denies the host, and so
    does a failed lookup. *)
Theorem resolveAndCheck_allows (S : Type) net hostname (w : S * list Call) :
  exists ok,
    fst (resolveAndCheck net hostname w) = Value ok
    /\ (ok = true <->
        exists addresses,
          lookup net hostname = Value addresses
          /\ Forall (fun a => isPrivateIP (address a) = false) addresses).
Proof.
  unfold resolveAndCheck, tryCatch, awaitLookup, mbind, M_bind, bind, ret.
  destruct (lookup net hostname) as [addresses | e] eqn:Hl; simpl.
  - exists (noneIsPrivate addresses). split; [done|].
    rewrite noneIsPrivate_Forall. split.
    + intros Hall. by exists addresses.
    + by intros (l & [= <-] & Hall).
  - exists false. split; [done|]. split; [done|].
    by intros (l & ? & _).
Qed.

End GuardFacts.

(** ** The document *)

Section DomFacts.
Import Js Async Dom.

Lemma Node_children_ind (P : Node -> Prop) :
  (forall d, P (Text d)) ->
  (forall name attribs children,
      Forall P children -> P (Element name attribs children)) ->
  forall n, P n.
Proof.
  intros HText HElement. fix IH 1.
  intros [d | name attribs children]; [apply HText|].
  apply HElement. induction children as [|c rest IHrest]; constructor.
  - apply IH.
  - exact IHrest.
Qed.

Lemma mapM_values {A B} (f : A -> Outcome B) (g : A -> B) l :
  Forall (fun x => f x = Value (g x)) l -> mapM f l = Value (map g l).
Proof.
  induction 1 as [|x rest Hx _ IH]; [done|].
  simpl. by rewrite Hx, IH.
Qed.

(** A callback that never throws makes [each] a plain map. *)
Lemma each_values sel callback :
  (forall attribs, exists attribs', callback attribs = Value attribs') ->
  forall n,
    each sel callback n
    = Value (mapElements sel (fun attribs => settle (callback attribs) attribs) n).
Proof.
  intros Hcb. induction n as [d | name attribs children IH] using Node_children_ind.
  - done.
  - simpl. destruct (sel name attribs).
    + destruct (Hcb attribs) as [attribs' ->]. simpl.
      by rewrite (mapM_values _ _ _ IH).
    + by rewrite (mapM_values _ _ _ IH).
Qed.

Lemma eachOf_values sel callback doc :
  (forall attribs, exists attribs', callback attribs = Value attribs') ->
  eachOf sel callback doc
  = Value (map (mapElements sel (fun attribs => settle (callback attribs) attribs)) doc).
Proof.
  intros Hcb. apply mapM_values. apply Forall_forall. intros n _.
  by apply each_values.
Qed.

Lemma elementsOf_mapElements sel f n :
  elementsOf (mapElements sel f n) = map (onElement sel f) (elementsOf n).
Proof.
  induction n as [d | name attribs children IH] using Node_children_ind; [done|].
  simpl. unfold onElement at 1. simpl. f_equal.
  induction IH as [|c rest Hc _ IHrest]; [done|].
  simpl. by rewrite map_app, Hc, IHrest.
Qed.

(** A pass keeps the elements where they are and changes only the
    attributes of those it selects. *)
Lemma elements_map_mapElements sel f doc :
  elements (map (mapElements sel f) doc) = map (onElement sel f) (elements doc).
Proof.
  unfold elements. induction doc as [|n rest IH]; [done|].
  simpl. by rewrite map_app, elementsOf_mapElements, IH.
Qed.






Lemma attr_putAttr attribs name value other :
  attr (putAttr attribs name value) other
  = if decide (name = other) then JStr value else attr attribs other.
Proof.
  induction attribs as [|[n v] rest IH]; simpl; [done|].
  destruct (decide (n = name)) as [-> | Hn]; simpl.
  - by destruct (decide (name = other)).
  - rewrite IH. destruct (decide (n = other)), (decide (name = other)); congruence.
Qed.

Lemma attr_not_null attribs name : attr attribs name <> JNull.
Proof.
  induction attribs as [|[n v] rest IH]; simpl; [done|]. by case_decide.
Qed.

End DomFacts.

(** ** The link rewriter *)

Section RewriteFacts.
Import Js Async Lib Dom.
Context `{Platform}.

Lemma lite_resolveAndProxy base val :
  NetlifyLite.resolveAndProxy base val = Netlify.resolveAndProxy base val.
Proof.
  unfold NetlifyLite.resolveAndProxy, Netlify.resolveAndProxy.
  by destruct (falsy val).
Qed.

(** [resolveAndProxy] gives its argument back, or the proxied address of
    what the argument resolves to. *)
Lemma resolveAndProxy_cases base val :
  Netlify.resolveAndProxy base val = Value val
  \/ exists u,
       falsy val = false /\ skipScheme (toStr val) = false
       /\ newURL (toStr val) (Some base) = Value u
       /\ Netlify.resolveAndProxy base val
          = Value (JStr (Netlify.FUNCTION_PATH +:+ "?url=" +:+ encodeURIComponent (href u))).
Proof.
  unfold Netlify.resolveAndProxy.
  destruct (falsy val) eqn:Hf; [by left|].
  destruct (skipScheme (toStr val)) eqn:Hs; [by left|].
  destruct (newURL (toStr val) (Some base)) as [u | e] eqn:Hu; [|by left].
  right. by exists u.
Qed.

Lemma resolveAndProxy_string base val :
  falsy val = false -> exists s, Netlify.resolveAndProxy base val = Value (JStr s).
Proof.
  intros Hf. destruct (resolveAndProxy_cases base val) as [Hv | (u & _ & _ & _ & Hv)].
  - destruct val as [| |s]; try done. by exists s.
  - eauto.
Qed.

Lemma rewriteAnchor_total target attribs :
  exists attribs', Netlify.rewriteAnchor target attribs = Value attribs'.
Proof.
  unfold Netlify.rewriteAnchor. destruct (falsy (attr attribs "href")) eqn:Hf; [eauto|].
  destruct (resolveAndProxy_string target _ Hf) as [s ->]. simpl. eauto.
Qed.

Lemma rewriteSrc_total target attribs :
  exists attribs', Netlify.rewriteSrc target attribs = Value attribs'.
Proof.
  unfold Netlify.rewriteSrc. destruct (falsy (attr attribs "src")) eqn:Hf; [eauto|].
  destruct (resolveAndProxy_string target _ Hf) as [s ->]. simpl. eauto.
Qed.

Lemma rewriteLink_total target attribs :
  exists attribs', Netlify.rewriteLink target attribs = Value attribs'.
Proof.
  unfold Netlify.rewriteLink. destruct (falsy (attr attribs "href")) eqn:Hf; [eauto|].
  destruct (resolveAndProxy_string target _ Hf) as [s ->]. simpl. eauto.
Qed.

Lemma lite_resolve_total base val :
  exists v, NetlifyLite.resolveAndProxy base val = Value v.
Proof.
  rewrite lite_resolveAndProxy.
  destruct (resolveAndProxy_cases base val) as [-> | (u & _ & _ & _ & ->)]; eauto.
Qed.

Lemma lite_rewriteHref_total target attribs :
  exists attribs', NetlifyLite.rewriteHref target attribs = Value attribs'.
Proof.
  unfold NetlifyLite.rewriteHref.
  destruct (lite_resolve_total target (attr attribs "href")) as [v ->]. simpl. eauto.
Qed.

Lemma lite_rewriteSrc_total target attribs :
  exists attribs', NetlifyLite.rewriteSrc target attribs = Value attribs'.
Proof.
  unfold NetlifyLite.rewriteSrc.
  destruct (lite_resolve_total target (attr attribs "src")) as [v ->]. simpl. eauto.
Qed.

(** The three passes of proxy.js never throw, and they change the elements
    one by one, in place. *)
Lemma rewriteLinks_elements target doc :
  exists page,
    Netlify.rewriteLinks target doc = Value page
    /\ elements page = map (Netlify.rewriteElement target) (elements doc).
Proof.
  unfold Netlify.rewriteLinks.
  rewrite (eachOf_values selA) by apply rewriteAnchor_total.
  cbn [mbind Outcome_bind].
  rewrite (eachOf_values selSrc) by apply rewriteSrc_total.
  cbn [mbind Outcome_bind].
  rewrite (eachOf_values selLinkHref) by apply rewriteLink_total.
  eexists. split; [reflexivity|].
  rewrite !elements_map_mapElements, !map_map. done.
Qed.

Lemma lite_rewriteLinks_elements target doc :
  exists page,
    NetlifyLite.rewriteLinks target doc = Value page
    /\ elements page = map (NetlifyLite.rewriteElement target) (elements doc).
Proof.
  unfold NetlifyLite.rewriteLinks.
  rewrite (eachOf_values selAHref) by apply lite_rewriteHref_total.
  cbn [mbind Outcome_bind].
  rewrite (eachOf_values selSrc) by apply lite_rewriteSrc_total.
  cbn [mbind Outcome_bind].
  rewrite (eachOf_values selLinkHref) by apply lite_rewriteHref_total.
  eexists. split; [reflexivity|].
  rewrite !elements_map_mapElements, !map_map. done.
Qed.

(** The [src] pass leaves every other attribute alone. *)
Lemma rewriteSrc_keeps target attribs name :
  name <> "src" ->
  attr (settle (Netlify.rewriteSrc target attribs) attribs) name = attr attribs name.
Proof.
  intros Hn. unfold Netlify.rewriteSrc.
  destruct (falsy (attr attribs "src")) eqn:Hf; [done|].
  destruct (resolveAndProxy_string target _ Hf) as [s ->]. simpl.
  rewrite attr_putAttr. case_decide; congruence.
Qed.

Lemma lite_rewriteSrc_keeps target attribs name :
  name <> "src" ->
  attr (settle (NetlifyLite.rewriteSrc target attribs) attribs) name = attr attribs name.
Proof.
  intros Hn. unfold NetlifyLite.rewriteSrc. rewrite lite_resolveAndProxy.
  destruct (resolveAndProxy_cases target (attr attribs "src"))
    as [-> | (u & _ & _ & _ & ->)]; simpl.
  - destruct (attr attribs "src") as [| |s] eqn:E; simpl; try done.
    + by apply attr_not_null in E.
    + rewrite attr_putAttr. case_decide; congruence.
  - rewrite attr_putAttr. case_decide; congruence.
Qed.


Lemma rewriteElement_name target e : fst (Netlify.rewriteElement target e) = fst e.
Proof. done. Qed.

Lemma lite_rewriteElement_name target e : fst (NetlifyLite.rewriteElement target e) = fst e.
Proof. done. Qed.


(** C3. A value that begins, in any letter case, with [data:],
    [javascript:], [mailto:], [tel:] or [#] comes back from
    [resolveAndProxy] as it went in, whatever the base, in proxy.js and in
    the short function. *)
Theorem resolveAndProxy_skips base v p :
  p ∈ ["data:"; "javascript:"; "mailto:"; "tel:"; "#"] ->
  startsWith (toLowerCase v) p = true ->
  Netlify.resolveAndProxy base (JStr v) = Value (JStr v)
  /\ NetlifyLite.resolveAndProxy base (JStr v) = Value (JStr v).
Proof.
  intros Hp Hs. rewrite lite_resolveAndProxy.
  assert (skipScheme v = true) as Hskip.
  { unfold skipScheme, startsWithNoCase.
    repeat (apply elem_of_cons in Hp as [-> | Hp]; [rewrite Hs; by rewrite ?orb_true_r|]).
    by apply elem_of_nil in Hp. }
  unfold Netlify.resolveAndProxy. destruct (falsy (JStr v)); [done|].
  simpl toStr. by rewrite Hskip.
Qed.

Lemma resolveAndProxy_refused base val e :
  newURL (toStr val) (Some base) = Thrown e ->
  Netlify.resolveAndProxy base val = Value val.
Proof.
  intros Hu. unfold Netlify.resolveAndProxy.
  destruct (falsy val); [done|]. destruct (skipScheme (toStr val)); [done|].
  by rewrite Hu.
Qed.

(** Each callback leaves an [href] or a [src] that the parser refuses as it
    found it. *)
Lemma rewriteAnchor_refused target attribs k v e :
  k = "href" \/ k = "src" ->
  attr attribs k = JStr v ->
  newURL v (Some target) = Thrown e ->
  attr (settle (Netlify.rewriteAnchor target attribs) attribs) k = JStr v.
Proof.
  intros Hk Hv Hu. unfold Netlify.rewriteAnchor.
  destruct (falsy (attr attribs "href")) eqn:Hf; [done|].
  destruct Hk as [-> | ->].
  - rewrite Hv, (resolveAndProxy_refused target (JStr v) e Hu). simpl.
    rewrite !attr_putAttr. by repeat case_decide.
  - destruct (resolveAndProxy_string target _ Hf) as [s ->]. simpl.
    rewrite !attr_putAttr. by repeat case_decide.
Qed.

Lemma rewriteSrc_refused target attribs k v e :
  k = "href" \/ k = "src" ->
  attr attribs k = JStr v ->
  newURL v (Some target) = Thrown e ->
  attr (settle (Netlify.rewriteSrc target attribs) attribs) k = JStr v.
Proof.
  intros Hk Hv Hu. destruct Hk as [-> | ->].
  - by rewrite rewriteSrc_keeps.
  - unfold Netlify.rewriteSrc.
    destruct (falsy (attr attribs "src")) eqn:Hf; [done|].
    rewrite Hv, (resolveAndProxy_refused target (JStr v) e Hu). simpl.
    rewrite attr_putAttr. by case_decide.
Qed.

Lemma rewriteLink_refused target attribs k v e :
  k = "href" \/ k = "src" ->
  attr attribs k = JStr v ->
  newURL v (Some target) = Thrown e ->
  attr (settle (Netlify.rewriteLink target attribs) attribs) k = JStr v.
Proof.
  intros Hk Hv Hu. unfold Netlify.rewriteLink.
  destruct (falsy (attr attribs "href")) eqn:Hf; [done|].
  destruct Hk as [-> | ->].
  - rewrite Hv, (resolveAndProxy_refused target (JStr v) e Hu). simpl.
    rewrite attr_putAttr. by case_decide.
  - destruct (resolveAndProxy_string target _ Hf) as [s ->]. simpl.
    rewrite attr_putAttr. by case_decide.
Qed.

Lemma lite_rewriteHref_refused target attribs k v e :
  k = "href" \/ k = "src" ->
  attr attribs k = JStr v ->
  newURL v (Some target) = Thrown e ->
  attr (settle (NetlifyLite.rewriteHref target attribs) attribs) k = JStr v.
Proof.
  intros Hk Hv Hu. unfold NetlifyLite.rewriteHref. rewrite lite_resolveAndProxy.
  destruct Hk as [-> | ->].
  - rewrite Hv, (resolveAndProxy_refused target (JStr v) e Hu). simpl.
    rewrite attr_putAttr. by case_decide.
  - destruct (resolveAndProxy_cases target (attr attribs "href"))
      as [-> | (u & _ & _ & _ & ->)]; simpl.
    + destruct (attr attribs "href") as [| |h] eqn:E; simpl; try done.
      * by apply attr_not_null in E.
      * rewrite attr_putAttr. by case_decide.
    + rewrite attr_putAttr. by case_decide.
Qed.

Lemma lite_rewriteSrc_refused target attribs k v e :
  k = "href" \/ k = "src" ->
  attr attribs k = JStr v ->
  newURL v (Some target) = Thrown e ->
  attr (settle (NetlifyLite.rewriteSrc target attribs) attribs) k = JStr v.
Proof.
  intros Hk Hv Hu. destruct Hk as [-> | ->].
  - by rewrite lite_rewriteSrc_keeps.
  - unfold NetlifyLite.rewriteSrc. rewrite lite_resolveAndProxy.
    rewrite Hv, (resolveAndProxy_refused target (JStr v) e Hu). simpl.
    rewrite attr_putAttr. by case_decide.
Qed.

Lemma rewriteElement_refused target name attribs k v e :
  k = "href" \/ k = "src" ->
  attr attribs k = JStr v ->
  newURL v (Some target) = Thrown e ->
  attr (snd (Netlify.rewriteElement target (name, attribs))) k = JStr v.
Proof.
  intros Hk Hv Hu. unfold Netlify.rewriteElement, onElement. cbn [fst snd].
  assert (forall (b : bool) a,
            attr a k = JStr v ->
            attr (if b then settle (Netlify.rewriteLink target a) a else a) k = JStr v)
    as H3 by (intros [] a Ha; [by eapply rewriteLink_refused | done]).
  assert (forall (b : bool) a,
            attr a k = JStr v ->
            attr (if b then settle (Netlify.rewriteSrc target a) a else a) k = JStr v)
    as H2 by (intros [] a Ha; [by eapply rewriteSrc_refused | done]).
  apply H3, H2. destruct (selA name attribs); [by eapply rewriteAnchor_refused | done].
Qed.

Lemma lite_rewriteElement_refused target name attribs k v e :
  k = "href" \/ k = "src" ->
  attr attribs k = JStr v ->
  newURL v (Some target) = Thrown e ->
  attr (snd (NetlifyLite.rewriteElement target (name, attribs))) k = JStr v.
Proof.
  intros Hk Hv Hu. unfold NetlifyLite.rewriteElement, onElement. cbn [fst snd].
  assert (forall (b : bool) a,
            attr a k = JStr v ->
            attr (if b then settle (NetlifyLite.rewriteHref target a) a else a) k = JStr v)
    as H3 by (intros [] a Ha; [by eapply lite_rewriteHref_refused | done]).
  assert (forall (b : bool) a,
            attr a k = JStr v ->
            attr (if b then settle (NetlifyLite.rewriteSrc target a) a else a) k = JStr v)
    as H2 by (intros [] a Ha; [by eapply lite_rewriteSrc_refused | done]).
  apply H3, H2, H3, Hv.
Qed.

(** C4. When the URL parser refuses the value, [resolveAndProxy] gives the
    value back; it never throws.  Neither does the rewriting of a whole
    page: every element is rewritten where it stands, and an [href] or a
    [src] the parser refuses is in the rewritten element as it was. *)
Theorem resolveAndProxy_fail_soft :
  (forall base val e,
      newURL (toStr val) (Some base) = Thrown e ->
      Netlify.resolveAndProxy base val = Value val
      /\ NetlifyLite.resolveAndProxy base val = Value val)
  /\ (forall base val,
        (exists v, Netlify.resolveAndProxy base val = Value v)
        /\ (exists v, NetlifyLite.resolveAndProxy base val = Value v))
  /\ (forall target doc,
        (exists links,
            Netlify.rewriteLinks target doc = Value links
            /\ Netlify.rewritePage target doc = Value (remove selCspMeta links)
            /\ elements links = map (Netlify.rewriteElement target) (elements doc))
        /\ (exists links,
              NetlifyLite.rewriteLinks target doc = Value links
              /\ NetlifyLite.rewritePage target doc = Value (remove selCspMeta links)
              /\ elements links = map (NetlifyLite.rewriteElement target) (elements doc)))
  /\ (forall target name attribs k v e,
        k = "href" \/ k = "src" ->
        attr attribs k = JStr v ->
        newURL v (Some target) = Thrown e ->
        attr (snd (Netlify.rewriteElement target (name, attribs))) k = JStr v
        /\ attr (snd (NetlifyLite.rewriteElement target (name, attribs))) k = JStr v).
Proof.
  split; [|split; [|split]].
  - intros base val e Hu. rewrite lite_resolveAndProxy.
    split; by eapply resolveAndProxy_refused.
  - intros base val. split; [|by apply lite_resolve_total].
    destruct (resolveAndProxy_cases base val) as [-> | (u & _ & _ & _ & ->)]; eauto.
  - intros target doc. split.
    + destruct (rewriteLinks_elements target doc) as (links & Hl & He).
      exists links. unfold Netlify.rewritePage. by rewrite Hl.
    + destruct (lite_rewriteLinks_elements target doc) as (links & Hl & He).
      exists links. unfold NetlifyLite.rewritePage. by rewrite Hl.
  - intros target name attribs k v e Hk Hv Hu. split.
    + by eapply rewriteElement_refused.
    + by eapply lite_rewriteElement_refused.
Qed.

(** *** The passes, element by element *)






















End RewriteFacts.

(** C3 on the small platform: [JavaScript:void(0)] is left alone. *)
Lemma resolveAndProxy_skips_witness :
  Netlify.resolveAndProxy (H := Toy.platform) "https://example.com"
    (Js.JStr "JavaScript:void(0)") = Async.Value (Js.JStr "JavaScript:void(0)")
  /\ NetlifyLite.resolveAndProxy (H := Toy.platform) "https://example.com"
       (Js.JStr "JavaScript:void(0)") = Async.Value (Js.JStr "JavaScript:void(0)").
Proof.
  apply (@resolveAndProxy_skips Toy.platform "https://example.com"
           "JavaScript:void(0)" "javascript:").
  - in_list.
  - reflexivity.
Defined.

(** C4 on the small platform: the parser refuses an address whose host is
    an open bracket, and the value, alone or as the [href] of a link element, stays as it is. *)
Lemma resolveAndProxy_fail_soft_witness :
  Netlify.resolveAndProxy (H := Toy.platform) "https://example.com" (Js.JStr "http://[")
    = Async.Value (Js.JStr "http://[")
  /\ Dom.attr
       (snd (Netlify.rewriteElement (H := Toy.platform) "https://example.com"
               ("link", [("rel", "stylesheet"); ("href", "http://[")]))) "href"
     = Js.JStr "http://[".
Proof.
  split.
  - apply (proj1 (@resolveAndProxy_fail_soft Toy.platform)
             "https://example.com" (Js.JStr "http://[") Toy.typeError).
    reflexivity.
  - apply (proj2 (proj2 (proj2 (@resolveAndProxy_fail_soft Toy.platform)))
             "https://example.com" "link" [("rel", "stylesheet"); ("href", "http://[")]
             "href" "http://[" Toy.typeError).
    + by left.
    + reflexivity.
    + reflexivity.
Defined.



(** ** The relayed headers (server.js) *)

Section HeaderFacts.
Import Js Async Server.
Context `{Platform}.

Lemma lowerChar_idem c : lowerChar (lowerChar c) = lowerChar c.
Proof. destruct c as [[] [] [] [] [] [] [] []]; reflexivity. Qed.

Lemma toLowerCase_idem s : toLowerCase (toLowerCase s) = toLowerCase s.
Proof. induction s as [|c s IH]; [done|]. simpl. by rewrite lowerChar_idem, IH. Qed.

(** The value [res.set] stores under a name. *)
Lemma set_lookup name value r key :
  resHeaders (set name value r) !! key
  = if decide (toLowerCase name = key)
    then Some (if decide (toLowerCase name = "content-type")
               then completeContentType value else value)
    else resHeaders r !! key.
Proof.
  unfold set. cbn [resHeaders].
  destruct (decide (toLowerCase name = key)) as [<- | Hk].
  - by rewrite lookup_insert_eq.
  - by rewrite lookup_insert_ne.
Qed.

Lemma relayHeaders_snoc hs h r :
  relayHeaders (hs ++ [h]) r
  = if bool_decide (toLowerCase (fst h) ∈ banned) then relayHeaders hs r
    else set (fst h) (snd h) (relayHeaders hs r).
Proof. unfold relayHeaders. by rewrite foldl_app. Qed.

(** The loop leaves the status as it is. *)
Lemma relayHeaders_status hs r : resStatus (relayHeaders hs r) = resStatus r.
Proof.
  induction hs as [|h hs IH] using rev_ind; [done|].
  rewrite relayHeaders_snoc. by case_bool_decide.
Qed.

(** The loop never writes under a key that is a banned name in any letter
    case. *)
Lemma relayHeaders_banned hs r key :
  toLowerCase key ∈ banned ->
  resHeaders (relayHeaders hs r) !! key = resHeaders r !! key.
Proof.
  intros Hkey. induction hs as [|h hs IH] using rev_ind; [done|].
  rewrite relayHeaders_snoc. case_bool_decide as Hb; [done|].
  rewrite set_lookup.
  destruct (decide (toLowerCase (fst h) = key)) as [Hk | Hk]; [|done].
  exfalso. apply Hb. subst key. by rewrite toLowerCase_idem in Hkey.
Qed.

(** A header that is not banned is stored by [res.set], and stays unless a
    later header of the same name replaces it. *)
Lemma relayHeaders_copied before name value after r :
  toLowerCase name ∉ banned ->
  (forall h, h ∈ after -> toLowerCase (fst h) <> toLowerCase name) ->
  resHeaders (relayHeaders (before ++ (name, value) :: after) r) !! toLowerCase name
  = Some (if decide (toLowerCase name = "content-type")
          then completeContentType value else value).
Proof.
  intros Hname. induction after as [|h after IH] using rev_ind; intros Hafter.
  - rewrite relayHeaders_snoc. cbn [fst snd].
    rewrite bool_decide_eq_false_2 by done.
    rewrite set_lookup. by destruct (decide (toLowerCase name = toLowerCase name)).
  - rewrite app_comm_cons, app_assoc, relayHeaders_snoc.
    assert (toLowerCase (fst h) <> toLowerCase name) as Hh
      by (apply Hafter; set_solver).
    assert (resHeaders (relayHeaders (before ++ (name, value) :: after) r)
              !! toLowerCase name
            = Some (if decide (toLowerCase name = "content-type")
                    then completeContentType value else value)) as IH'
      by (apply IH; intros h' Hh'; apply Hafter; set_solver).
    case_bool_decide; [done|].
    rewrite set_lookup.
    by destruct (decide (toLowerCase (fst h) = toLowerCase name)).
Qed.

Lemma keeps_ret {A} key (a : A) : keepsHeader key (mret a).
Proof. by intros w. Qed.

Lemma keeps_await {A} key (o : Outcome A) : keepsHeader key (await o).
Proof. by intros w. Qed.

Lemma keeps_bind {A B} key (m : M Res A) (k : A -> M Res B) :
  keepsHeader key m -> (forall a, keepsHeader key (k a)) -> keepsHeader key (m ≫= k).
Proof.
  intros Hm Hk w. unfold mbind, M_bind, bind.
  specialize (Hm w). destruct (m w) as [[a | e] w']; simpl in *; [|done].
  by rewrite Hk.
Qed.

Lemma keeps_tryCatch {A} key (m : M Res A) (h : JsError -> M Res A) :
  keepsHeader key m -> (forall e, keepsHeader key (h e)) -> keepsHeader key (tryCatch m h).
Proof.
  intros Hm Hh w. unfold tryCatch.
  specialize (Hm w). destruct (m w) as [[a | e] w']; simpl in *; [done|].
  by rewrite Hh.
Qed.

Lemma keeps_update key (f : Res -> Res) :
  (forall r, resHeaders (f r) !! key = resHeaders r !! key) ->
  keepsHeader key (update f).
Proof. intros Hf w. apply Hf. Qed.

Lemma keeps_reply key code text : keepsHeader key (reply code text).
Proof. unfold reply. apply keeps_bind; [|intros _]; by apply keeps_update. Qed.

Lemma keeps_resolveAndCheck key net hostname :
  keepsHeader key (Guard.resolveAndCheck net hostname).
Proof.
  unfold Guard.resolveAndCheck. apply keeps_tryCatch.
  - apply keeps_bind; [by intros w | intros l; apply keeps_ret].
  - intros e. apply keeps_ret.
Qed.

(** Whatever the request and the upstream, the handler leaves the headers
    with banned names as it found them. *)
Lemma proxy_keeps_banned ALLOWLIST net req key :
  toLowerCase key ∈ banned -> keepsHeader key (proxy ALLOWLIST net req).
Proof.
  intros Hkey. unfold proxy.
  destruct (falsy (queryUrl req)); [apply keeps_reply|].
  destruct (newURL _ None) as [target | e]; [|apply keeps_reply].
  destruct (negb _); [apply keeps_reply|].
  destruct (_ && _); [apply keeps_reply|].
  apply keeps_bind; [apply keeps_resolveAndCheck|]. intros ok.
  destruct (negb ok); [apply keeps_reply|].
  unfold fetchAndRelay.
  apply keeps_tryCatch; [|intros e; apply keeps_reply].
  apply keeps_bind; [by intros w | intros upstreamRes].
  apply keeps_bind; [by apply keeps_update | intros _].
  apply keeps_bind.
  { apply keeps_update. intros r. by apply relayHeaders_banned. }
  intros _. destruct (includes _ _).
  - apply keeps_bind; [apply keeps_await | intros text].
    apply keeps_bind; [|intros _; by apply keeps_update].
    apply keeps_update. intros r. rewrite set_lookup.
    destruct (decide (toLowerCase "content-type" = key)) as [Hk | Hk]; [|done].
    subst key. not_in_list Hkey.
  - by apply keeps_update.
Qed.

End HeaderFacts.

(** ** Base64 *)

Section Base64Facts.
Import Js Lib.

#[local] Arguments sextetChar : simpl never.
#[local] Arguments sextetValue : simpl never.
#[local] Arguments toByte : simpl never.

Lemma forallb_range (P : Z -> bool) (m : nat) :
  forallb P (map Z.of_nat (seq 0 m)) = true ->
  forall n, 0 <= n < Z.of_nat m -> P n = true.
Proof.
  intros Hall n Hn. rewrite forallb_forall in Hall. apply Hall.
  apply in_map_iff. exists (Z.to_nat n). split; [lia|].
  apply in_seq. lia.
Qed.

Lemma sextet_read n :
  0 <= n < 64 -> sextetValue (sextetChar n) = Some n /\ sextetChar n <> "="%char.
Proof.
  intros Hn.
  pose (check := fun k : Z =>
    match sextetValue (sextetChar k) with
    | Some v => (v =? k) && negb (code (sextetChar k) =? 61)
    | None => false
    end).
  assert (check n = true) as Hc
    by (apply (forallb_range check 64); [by vm_compute | done]).
  unfold check in Hc.
  destruct (sextetValue (sextetChar n)) as [v|]; [|done].
  apply andb_true_iff in Hc as [Hv Hne]. apply Z.eqb_eq in Hv. subst v.
  split; [done|]. intros Heq. rewrite Heq in Hne. by vm_compute in Hne.
Qed.

Lemma byteValue_range x : 0 <= byteValue x < 256.
Proof. unfold byteValue. pose proof (Byte.to_N_bounded x). lia. Qed.

Lemma toByte_value x : toByte (byteValue x) = Some x.
Proof. unfold toByte, byteValue. rewrite N2Z.id. apply Byte.of_to_N. Qed.

Lemma list_ind3 {A} (P : list A -> Prop) :
  P [] -> (forall x, P [x]) -> (forall x y, P [x; y]) ->
  (forall x y z l, P l -> P (x :: y :: z :: l)) ->
  forall l, P l.
Proof.
  intros H0 H1 H2 H3. fix IH 1.
  intros [|x [|y [|z l]]]; [exact H0 | apply H1 | apply H2 | apply H3, IH].
Qed.

Lemma decode_four c0 c1 c2 c3 rest :
  base64Decode (String c0 (String c1 (String c2 (String c3 rest)))) =
  s0 ← sextetValue c0;
  s1 ← sextetValue c1;
  x ← toByte (s0 * 4 + s1 / 16);
  if decide (c2 = "="%char) then
    if decide (c3 = "="%char ∧ rest = "") then Some [x] else None
  else
    s2 ← sextetValue c2;
    y ← toByte (s1 mod 16 * 16 + s2 / 4);
    if decide (c3 = "="%char) then
      if decide (rest = "") then Some [x; y] else None
    else
      s3 ← sextetValue c3;
      z ← toByte (s2 mod 4 * 64 + s3);
      tail ← base64Decode rest;
      Some (x :: y :: z :: tail).
Proof. reflexivity. Qed.

(** What was encoded is what is decoded. *)
Lemma base64_round_trip bs : base64Decode (base64Encode bs) = Some bs.
Proof.
  induction bs as [| x | x y | x y z l IH] using list_ind3.
  - reflexivity.
  - pose proof (byteValue_range x) as Hx.
    cbn [base64Encode]. change "==" with (String "=" (String "=" "")).
    rewrite decode_four.
    destruct (sextet_read (byteValue x / 4)) as [-> _];
      [Z.div_mod_to_equations; lia|].
    destruct (sextet_read (byteValue x mod 4 * 16)) as [-> _];
      [Z.div_mod_to_equations; lia|].
    cbn [mbind option_bind].
    replace (byteValue x / 4 * 4 + byteValue x mod 4 * 16 / 16) with (byteValue x)
      by (Z.div_mod_to_equations; lia).
    rewrite toByte_value. cbn [mbind option_bind].
    rewrite decide_True by done. by rewrite decide_True.
  - pose proof (byteValue_range x) as Hx. pose proof (byteValue_range y) as Hy.
    cbn [base64Encode]. change "=" with (String "=" "").
    rewrite decode_four.
    destruct (sextet_read (byteValue x / 4)) as [-> _];
      [Z.div_mod_to_equations; lia|].
    destruct (sextet_read (byteValue x mod 4 * 16 + byteValue y / 16)) as [-> _];
      [Z.div_mod_to_equations; lia|].
    destruct (sextet_read (byteValue y mod 16 * 4)) as [-> Hne];
      [Z.div_mod_to_equations; lia|].
    cbn [mbind option_bind].
    replace (byteValue x / 4 * 4 + (byteValue x mod 4 * 16 + byteValue y / 16) / 16)
      with (byteValue x) by (Z.div_mod_to_equations; lia).
    rewrite toByte_value. cbn [mbind option_bind].
    rewrite decide_False by done. cbn [mbind option_bind].
    replace ((byteValue x mod 4 * 16 + byteValue y / 16) mod 16 * 16
             + byteValue y mod 16 * 4 / 4)
      with (byteValue y) by (Z.div_mod_to_equations; lia).
    rewrite toByte_value. cbn [mbind option_bind].
    rewrite decide_True by done. by rewrite decide_True.
  - pose proof (byteValue_range x) as Hx. pose proof (byteValue_range y) as Hy.
    pose proof (byteValue_range z) as Hz.
    cbn [base64Encode]. rewrite decode_four.
    destruct (sextet_read (byteValue x / 4)) as [-> _];
      [Z.div_mod_to_equations; lia|].
    destruct (sextet_read (byteValue x mod 4 * 16 + byteValue y / 16)) as [-> _];
      [Z.div_mod_to_equations; lia|].
    destruct (sextet_read (byteValue y mod 16 * 4 + byteValue z / 64)) as [-> Hne2];
      [Z.div_mod_to_equations; lia|].
    destruct (sextet_read (byteValue z mod 64)) as [-> Hne3];
      [Z.div_mod_to_equations; lia|].
    cbn [mbind option_bind].
    replace (byteValue x / 4 * 4 + (byteValue x mod 4 * 16 + byteValue y / 16) / 16)
      with (byteValue x) by (Z.div_mod_to_equations; lia).
    rewrite toByte_value. cbn [mbind option_bind].
    rewrite decide_False by done. cbn [mbind option_bind].
    replace ((byteValue x mod 4 * 16 + byteValue y / 16) mod 16 * 16
             + (byteValue y mod 16 * 4 + byteValue z / 64) / 4)
      with (byteValue y) by (Z.div_mod_to_equations; lia).
    rewrite toByte_value. cbn [mbind option_bind].
    rewrite decide_False by done. cbn [mbind option_bind].
    replace ((byteValue y mod 16 * 4 + byteValue z / 64) mod 4 * 64 + byteValue z mod 64)
      with (byteValue z) by (Z.div_mod_to_equations; lia).
    rewrite toByte_value. cbn [mbind option_bind].
    by rewrite IH.
Qed.

End Base64Facts.

(** ** The handlers *)

Section HandlerFacts.
Import Js Async Lib Dom.
Context `{Platform}.

Lemma isHttpUrl_truthy target : isHttpUrl target = true -> falsy (JStr target) = false.
Proof. destruct target; [intros Hh; by vm_compute in Hh | done]. Qed.

Lemma status_kept (s : Z) : 100 <= s <= 599 -> (if s =? 0 then 200 else s) = s.
Proof. intros Hs. destruct (Z.eqb_spec s 0); lia. Qed.


Lemma proxy_reaches ALLOWLIST net req target w :
  Server.reachesFetch ALLOWLIST net req target ->
  Server.proxy ALLOWLIST net req w
  = Server.fetchAndRelay net req target
      (fst w, snd w ++ [DnsLookup (hostname target)]).
Proof.
  intros (Hraw & Hparse & Hproto & Hallow & addresses & Hlookup & Hpublic).
  unfold Server.proxy. rewrite Hraw, Hparse.
  rewrite bool_decide_eq_true_2 by done. cbn [negb].
  assert (negb (Nat.eqb (length ALLOWLIST) 0)
          && negb (bool_decide (hostname target ∈ ALLOWLIST)) = false) as ->.
  { destruct Hallow as [-> | Hin]; [done|].
    rewrite (bool_decide_eq_true_2 _ Hin). apply andb_false_r. }
  unfold mbind at 1, M_bind at 1, bind at 1.
  unfold Guard.resolveAndCheck, tryCatch at 1, mbind at 1, M_bind at 1, bind at 1,
    awaitLookup, ret.
  rewrite Hlookup. cbn [fst snd].
  apply noneIsPrivate_Forall in Hpublic. rewrite Hpublic. done.
Qed.

Lemma not_html_any_case ct :
  includes (toLowerCase ct) "text/html" = false -> includes ct "text/html" = false.
Proof.
  intros Hno. destruct (includes ct "text/html") eqn:E; [|done].
  apply includes_lower in E. change (toLowerCase "text/html") with "text/html" in E.
  congruence.
Qed.

(** C9. When the Content-Type of the upstream answer does not hold
    [text/html] in any letter case, the Netlify functions return the
    upstream status and a body flagged as base64 whose decoding is the
    upstream bytes, and server.js sets the upstream status and pipes the
    upstream bytes to the response. *)
Theorem bytes_pass_through :
  (forall net event target resp bytes w,
      eventUrl event = JStr target ->
      isHttpUrl target = true ->
      fetch net target = Value resp ->
      includes (toLowerCase (contentTypeOf resp)) "text/html" = false ->
      body resp = Value bytes ->
      100 <= status resp <= 599 ->
      (exists r,
          fst (Netlify.handler net event w) = Value r
          /\ statusCode r = status resp
          /\ isBase64Encoded r = true
          /\ base64Decode (resultBody r) = Some bytes
          /\ delivered r = Some bytes)
      /\ (exists r,
            fst (NetlifyLite.handler net event w) = Value r
            /\ statusCode r = status resp
            /\ isBase64Encoded r = true
            /\ base64Decode (resultBody r) = Some bytes
            /\ delivered r = Some bytes))
  /\ (forall ALLOWLIST net req target resp bytes w,
        Server.reachesFetch ALLOWLIST net req target ->
        fetch net (href target) = Value resp ->
        includes (toLowerCase (contentTypeOf resp)) "text/html" = false ->
        body resp = Value bytes ->
        Server.resStatus (fst (snd (Server.proxy ALLOWLIST net req w))) = status resp
        /\ Server.resSent (fst (snd (Server.proxy ALLOWLIST net req w)))
           = Server.Piped bytes).
Proof.
  split.
  - intros net event target resp bytes w Hurl Hhttp Hfetch Hct Hbody Hstatus. split.
    + eexists. split.
      { unfold Netlify.handler, tryCatch, mbind, M_bind, bind, awaitFetch, await.
        rewrite Hurl, (isHttpUrl_truthy _ Hhttp). cbn [toStr].
        rewrite Hhttp. cbn [negb]. rewrite Hfetch, Hct, Hbody.
        cbn [fst]. reflexivity. }
      unfold delivered. cbn [statusCode isBase64Encoded resultBody].
      rewrite status_kept by done. by rewrite base64_round_trip.
    + eexists. split.
      { unfold NetlifyLite.handler, tryCatch, mbind, M_bind, bind, awaitFetch, await.
        rewrite Hurl, (isHttpUrl_truthy _ Hhttp). cbn [toStr].
        rewrite Hhttp. cbn [negb]. rewrite Hfetch, Hct, Hbody.
        cbn [fst]. reflexivity. }
      unfold delivered. cbn [statusCode isBase64Encoded resultBody].
      rewrite status_kept by done. by rewrite base64_round_trip.
  - intros ALLOWLIST net req target resp bytes w Hreach Hfetch Hct Hbody.
    rewrite (proxy_reaches _ _ _ _ _ Hreach).
    unfold Server.fetchAndRelay, tryCatch, mbind, M_bind, bind, awaitFetch, update.
    rewrite Hfetch. cbn [fst snd].
    rewrite (not_html_any_case _ Hct). cbn [fst snd].
    unfold Server.pipe. rewrite Hbody. cbn [Server.resStatus Server.resSent].
    by rewrite relayHeaders_status.
Qed.

(** C6, as the scripts have it.  Without a [url] parameter every handler
    answers 400 and calls neither [fetch] nor [dns.lookup]: the Netlify
    functions with a body that shows the usage, server.js with
    [Missing url parameter].  When [fetch] fails, server.js answers 502
    [Bad gateway], and the Netlify functions answer 500 with the message of
    the error. *)
Theorem missing_url_and_failed_fetch :
  (forall net event w,
      falsy (eventUrl event) = true ->
      Netlify.handler net event w
      = (Value (plain 400
           "Missing url parameter. Usage: /.netlify/functions/proxy?url=https://example.com"),
         w)
      /\ NetlifyLite.handler net event w
         = (Value (plain 400
              "Missing url parameter. Usage: /.netlify/functions/proxy?url=https://example.com"),
            w))
  /\ (forall ALLOWLIST net req w,
        falsy (Server.queryUrl req) = true ->
        Server.proxy ALLOWLIST net req w
        = (Value tt,
           (Server.send "Missing url parameter" (Server.setStatus 400 (fst w)), snd w)))
  /\ (forall ALLOWLIST net req target e w,
        Server.reachesFetch ALLOWLIST net req target ->
        fetch net (href target) = Thrown e ->
        Server.resStatus (fst (snd (Server.proxy ALLOWLIST net req w))) = 502
        /\ Server.resSent (fst (snd (Server.proxy ALLOWLIST net req w)))
           = Server.SentText "Bad gateway")
  /\ (forall net event target e w,
        eventUrl event = JStr target ->
        isHttpUrl target = true ->
        fetch net target = Thrown e ->
        fst (Netlify.handler net event w)
        = Value (plain 500 ("Proxy function error: " +:+ errorText e))
        /\ fst (NetlifyLite.handler net event w)
           = Value (plain 500 ("Proxy function error: " +:+ errorText e))).
Proof.
  split; [|split; [|split]].
  - intros net event w Hmissing.
    unfold Netlify.handler, NetlifyLite.handler, tryCatch. by rewrite Hmissing.
  - intros ALLOWLIST net req w Hmissing.
    unfold Server.proxy. rewrite Hmissing. by destruct w.
  - intros ALLOWLIST net req target e w Hreach Hfetch.
    rewrite (proxy_reaches _ _ _ _ _ Hreach).
    unfold Server.fetchAndRelay, tryCatch, mbind, M_bind, bind, awaitFetch.
    rewrite Hfetch. done.
  - intros net event target e w Hurl Hhttp Hfetch.
    unfold Netlify.handler, NetlifyLite.handler, tryCatch, mbind, M_bind, bind,
      awaitFetch.
    rewrite Hurl, (isHttpUrl_truthy _ Hhttp). cbn [toStr].
    rewrite Hhttp. cbn [negb]. by rewrite Hfetch.
Qed.

(** A request the guard lets through goes on to [fetch]; one it denies is
    answered 403 and [fetch] is not called. *)
Lemma denied_is_not_fetched ALLOWLIST net req target w :
  falsy (Server.queryUrl req) = false ->
  newURL (toStr (Server.queryUrl req)) None = Value target ->
  protocol target ∈ ["http:"; "https:"] ->
  ALLOWLIST = [] \/ hostname target ∈ ALLOWLIST ->
  fst (Guard.resolveAndCheck net (hostname target) w) = Value false ->
  Server.proxy ALLOWLIST net req w
  = (Value tt,
     (Server.send "Access to private/internal IPs is blocked"
        (Server.setStatus 403 (fst w)),
      snd w ++ [DnsLookup (hostname target)])).
Proof.
  intros Hraw Hparse Hproto Hallow Hdenied.
  unfold Server.proxy. rewrite Hraw, Hparse.
  rewrite bool_decide_eq_true_2 by done. cbn [negb].
  assert (negb (Nat.eqb (length ALLOWLIST) 0)
          && negb (bool_decide (hostname target ∈ ALLOWLIST)) = false) as ->.
  { destruct Hallow as [-> | Hin]; [done|].
    rewrite (bool_decide_eq_true_2 _ Hin). apply andb_false_r. }
  unfold mbind, M_bind, bind.
  revert Hdenied.
  unfold Guard.resolveAndCheck, tryCatch, mbind, M_bind, bind, awaitLookup, ret.
  destruct (lookup net (hostname target)) as [addresses | e]; cbn [fst snd].
  - intros [= ->]. done.
  - done.
Qed.

(** C5, as the script has it.  Through the whole handler of server.js the
    response keeps under the six banned names, in any letter case, what it
    had before the handler ran, so none of them is relayed.  After a fetch
    that succeeded the handler has passed every other upstream header to
    [res.set], the last one of a name standing; that is the response it
    pipes the body to when the answer is not HTML, with all those headers
    on it.  When the answer is HTML it is the response on which the handler
    then sets [content-type] again, to [text/html; charset=utf-8], before
    it sends the page (or, when the text cannot be read, on which it sets
    502 and sends [Bad gateway]). *)
Theorem relayed_headers_sanitized :
  (forall ALLOWLIST net req w key,
      toLowerCase key ∈ Server.banned ->
      Server.resHeaders (fst (snd (Server.proxy ALLOWLIST net req w))) !! key
      = Server.resHeaders (fst w) !! key)
  /\ (forall ALLOWLIST net req target resp w,
        Server.reachesFetch ALLOWLIST net req target ->
        fetch net (href target) = Value resp ->
        exists relayed,
          fst (snd (Server.proxy ALLOWLIST net req w))
          = (if includes (contentTypeOf resp) "text/html" then
               match body resp with
               | Value bytes =>
                   Server.send
                     (Server.replaceHead
                        ("<head$1>" +:+ "<base href=" +:+ dq +:+ origin target +:+ dq +:+ ">")
                        "" (decodeText bytes))
                     (Server.set "content-type" "text/html; charset=utf-8" relayed)
               | Thrown _ => Server.send "Bad gateway" (Server.setStatus 502 relayed)
               end
             else Server.pipe (body resp) relayed)
          /\ (forall key,
                toLowerCase key ∈ Server.banned ->
                Server.resHeaders relayed !! key = Server.resHeaders (fst w) !! key)
          /\ (forall before name value after,
                headers resp = before ++ (name, value) :: after ->
                toLowerCase name ∉ Server.banned ->
                (forall h, h ∈ after -> toLowerCase (fst h) <> toLowerCase name) ->
                Server.resHeaders relayed !! toLowerCase name
                = Some (if decide (toLowerCase name = "content-type")
                        then completeContentType value else value)))
  /\ (forall ALLOWLIST net req target resp w before name value after,
        Server.reachesFetch ALLOWLIST net req target ->
        fetch net (href target) = Value resp ->
        includes (contentTypeOf resp) "text/html" = false ->
        headers resp = before ++ (name, value) :: after ->
        toLowerCase name ∉ Server.banned ->
        (forall h, h ∈ after -> toLowerCase (fst h) <> toLowerCase name) ->
        Server.resHeaders (fst (snd (Server.proxy ALLOWLIST net req w))) !! toLowerCase name
        = Some (if decide (toLowerCase name = "content-type")
                then completeContentType value else value)).
Proof.
  split; [|split].
  - intros ALLOWLIST net req w key Hkey. by apply proxy_keeps_banned.
  - intros ALLOWLIST net req target resp w Hreach Hfetch.
    exists (Server.relayHeaders (headers resp) (Server.setStatus (status resp) (fst w))).
    split; [|split].
    + rewrite (proxy_reaches _ _ _ _ _ Hreach).
      unfold Server.fetchAndRelay, tryCatch, mbind, M_bind, bind, awaitFetch, await,
        update, responseText, Server.reply.
      rewrite Hfetch. cbn [fst snd].
      destruct (includes (contentTypeOf resp) "text/html"); cbn [fst snd]; [|done].
      by destruct (body resp).
    + intros key Hkey. by rewrite relayHeaders_banned.
    + intros before name value after -> Hname Hlast. by apply relayHeaders_copied.
  - intros ALLOWLIST net req target resp w before name value after
      Hreach Hfetch Hct Hheaders Hname Hlast.
    rewrite (proxy_reaches _ _ _ _ _ Hreach).
    unfold Server.fetchAndRelay, tryCatch, mbind, M_bind, bind, awaitFetch, update.
    rewrite Hfetch. cbn [fst snd]. rewrite Hct. cbn [fst snd Server.pipe Server.resHeaders].
    rewrite Hheaders. by apply relayHeaders_copied.
Qed.

End HandlerFacts.



(** C9 on the small platform: the eight bytes of the picture come back
    from the Netlify function inside base64 and from server.js as they
    are. *)
Lemma bytes_pass_through_witness :
  (exists r,
      fst (Netlify.handler (H := Toy.platform)
             (Toy.serving [] Toy.picture) Toy.request (Toy.start tt)) = Async.Value r
      /\ statusCode r = 200
      /\ isBase64Encoded r = true
      /\ Lib.base64Decode (resultBody r) = Some [x89; x50; x4e; x47; x0d; x0a; x1a; x0a]
      /\ delivered r = Some [x89; x50; x4e; x47; x0d; x0a; x1a; x0a])
  /\ Server.resSent
       (fst (snd (Server.proxy (H := Toy.platform) []
                    (Toy.serving [Toy.publicAddress] Toy.picture)
                    Toy.serverRequest (Toy.start Server.freshRes))))
     = Server.Piped [x89; x50; x4e; x47; x0d; x0a; x1a; x0a].
Proof.
  split.
  - apply (proj1 (@bytes_pass_through Toy.platform)
             (Toy.serving [] Toy.picture) Toy.request "https://example.com"
             Toy.picture [x89; x50; x4e; x47; x0d; x0a; x1a; x0a] (Toy.start tt));
      [reflexivity | reflexivity | reflexivity | reflexivity | reflexivity | simpl; lia].
  - apply (proj2 (@bytes_pass_through Toy.platform) []
             (Toy.serving [Toy.publicAddress] Toy.picture) Toy.serverRequest
             Toy.exampleCom Toy.picture [x89; x50; x4e; x47; x0d; x0a; x1a; x0a]
             (Toy.start Server.freshRes)).
    + split; [reflexivity|]. split; [reflexivity|]. split; [in_list|].
      split; [by left|]. exists [Toy.publicAddress]. split; [reflexivity|].
      constructor; [reflexivity | constructor].
    + reflexivity.
    + reflexivity.
    + reflexivity.
Defined.

(** C6 as first written fails on the Netlify function: when [fetch]
    throws, its catch-all answers 500, not 502. *)
Lemma netlify_failed_fetch_answers_500 :
  Async.fetch Toy.failing "https://example.com"
    = Async.Thrown {| Async.errName := "FetchError"; Async.errMessage := "network timeout" |}
  /\ fst (Netlify.handler (H := Toy.platform) Toy.failing Toy.request (Toy.start tt))
     = Async.Value (plain 500 "Proxy function error: network timeout")
  /\ statusCode (plain 500 "Proxy function error: network timeout") <> 502.
Proof. split; [reflexivity|]. split; [reflexivity | discriminate]. Qed.

(** C6 on the small platform: no [url], no call; a host that does not
    answer gives 502 from server.js and 500 from the Netlify function. *)
Lemma missing_url_and_failed_fetch_witness :
  Netlify.handler (H := Toy.platform) Toy.unreachable Toy.emptyRequest (Toy.start tt)
    = (Async.Value (plain 400
         "Missing url parameter. Usage: /.netlify/functions/proxy?url=https://example.com"),
       Toy.start tt)
  /\ Server.proxy (H := Toy.platform) [] Toy.unreachable Toy.emptyServerRequest
       (Toy.start Server.freshRes)
     = (Async.Value tt,
        (Server.send "Missing url parameter" (Server.setStatus 400 Server.freshRes), []))
  /\ Server.resStatus
       (fst (snd (Server.proxy (H := Toy.platform) [] Toy.unreachable Toy.serverRequest
                    (Toy.start Server.freshRes)))) = 502
  /\ fst (Netlify.handler (H := Toy.platform) Toy.unreachable Toy.request (Toy.start tt))
     = Async.Value (plain 500 "Proxy function error: network timeout").
Proof.
  split; [|split; [|split]].
  - apply (proj1 (@missing_url_and_failed_fetch Toy.platform)
             Toy.unreachable Toy.emptyRequest (Toy.start tt)).
    reflexivity.
  - apply (proj1 (proj2 (@missing_url_and_failed_fetch Toy.platform)) []
             Toy.unreachable Toy.emptyServerRequest (Toy.start Server.freshRes)).
    reflexivity.
  - apply (proj1 (proj2 (proj2 (@missing_url_and_failed_fetch Toy.platform))) []
             Toy.unreachable Toy.serverRequest Toy.exampleCom
             {| Async.errName := "FetchError"; Async.errMessage := "network timeout" |}
             (Toy.start Server.freshRes)).
    + split; [reflexivity|]. split; [reflexivity|]. split; [in_list|].
      split; [by left|]. exists [Toy.publicAddress]. split; [reflexivity|].
      constructor; [reflexivity | constructor].
    + reflexivity.
  - apply (proj2 (proj2 (proj2 (@missing_url_and_failed_fetch Toy.platform)))
             Toy.unreachable Toy.request "https://example.com"
             {| Async.errName := "FetchError"; Async.errMessage := "network timeout" |}
             (Toy.start tt)); reflexivity.
Defined.

(** C5 as first written fails on an HTML answer: the upstream
    [Content-Type] is not banned, and the response does not carry it,
    because the handler sets its own. *)
Lemma html_content_type_is_replaced :
  (("Content-Type", "text/html; charset=iso-8859-1") ∈ Async.headers Toy.latinPage)
  /\ (Js.toLowerCase "Content-Type" ∉ Server.banned)
  /\ Server.resHeaders
       (fst (snd (Server.proxy (H := Toy.platform) []
                    (Toy.serving [Toy.publicAddress] Toy.latinPage)
                    Toy.serverRequest (Toy.start Server.freshRes)))) !! "content-type"
     = Some "text/html; charset=utf-8"
  /\ Server.resHeaders
       (fst (snd (Server.proxy (H := Toy.platform) []
                    (Toy.serving [Toy.publicAddress] Toy.latinPage)
                    Toy.serverRequest (Toy.start Server.freshRes)))) !! "content-type"
     <> Some "text/html; charset=iso-8859-1".
Proof.
  split; [in_list|]. split; [intros Hin; not_in_list Hin|].
  split; [reflexivity|]. by vm_compute.
Qed.

(** C5 on the small platform: of the headers of a style sheet that sets a
    cookie and forbids framing, [X-Other] is on the response and
    [Set-Cookie] is not. *)
Lemma relayed_headers_sanitized_witness :
  Server.resHeaders
    (fst (snd (Server.proxy (H := Toy.platform) []
                 (Toy.serving [Toy.publicAddress] Toy.styleSheet)
                 Toy.serverRequest (Toy.start Server.freshRes)))) !! "set-cookie"
  = Server.resHeaders (fst (Toy.start Server.freshRes)) !! "set-cookie"
  /\ Server.resHeaders
       (fst (snd (Server.proxy (H := Toy.platform) []
                    (Toy.serving [Toy.publicAddress] Toy.styleSheet)
                    Toy.serverRequest (Toy.start Server.freshRes)))) !! Js.toLowerCase "X-Other"
     = Some "1".
Proof.
  assert (Server.reachesFetch (H := Toy.platform) []
            (Toy.serving [Toy.publicAddress] Toy.styleSheet)
            Toy.serverRequest Toy.exampleCom) as Hreach.
  { split; [reflexivity|]. split; [reflexivity|]. split; [in_list|].
    split; [by left|]. exists [Toy.publicAddress]. split; [reflexivity|].
    constructor; [reflexivity | constructor]. }
  split.
  - apply (proj1 (@relayed_headers_sanitized Toy.platform) []
             (Toy.serving [Toy.publicAddress] Toy.styleSheet) Toy.serverRequest
             (Toy.start Server.freshRes) "set-cookie").
    in_list.
  - apply (proj2 (proj2 (@relayed_headers_sanitized Toy.platform)) []
             (Toy.serving [Toy.publicAddress] Toy.styleSheet) Toy.serverRequest
             Toy.exampleCom Toy.styleSheet (Toy.start Server.freshRes)
             [("Set-Cookie", "a=b"); ("Content-Type", "text/css")] "X-Other" "1"
             [("X-Frame-Options", "DENY")] Hreach).
    + reflexivity.
    + reflexivity.
    + reflexivity.
    + intros Hin. not_in_list Hin.
    + intros h Hh. apply list_elem_of_singleton in Hh as ->. vm_compute. discriminate.
Defined.
